(** * SCAR judge portal: the score record, the aggregator and the scoring views

    Shallow embedding of [tournaments/models.py] (class [JudgeScore]) and of
    the judge-scoring endpoints of [tournaments/views.py] ([match_scores],
    [match_scores_details], [delete_judge_score]).

    Python integers are unbounded, hence [Z].  A Python [dict] keeps its keys
    in insertion order and [calculate_result] iterates over two of them
    ([self.judges] and the local [ko_votes]), so both are association lists
    with the in-place update of a Python dict.  The [scores] payload is only
    read through [scores.get(key, 0)], so it is a [gmap string Z]: a mapping
    from category identifier to integer points, or null, as the data model
    has it (the serializer would let any JSON value through; other shapes are
    outside this embedding).  The table of [JudgeScore] rows is keyed by the
    unique [match_id]: a [gmap string JudgeScore].  Requests are handled one
    at a time. *)

From Stdlib Require Import ZArith Ascii String List Bool Lia DecimalString.
From stdpp Require Import base option list gmap strings.

Local Open Scope string_scope.

(** ** Insertion-ordered dictionaries (Python [dict]) *)

Module PyDict.
Section Dict.
Context {K V : Type} `{EqDecision K}.

(** [d.get(k)] *)
Fixpoint get (d : list (K * V)) (k : K) : option V :=
  match d with
  | [] => None
  | (k', v) :: d' => if decide (k = k') then Some v else get d' k
  end.

(** [d[k] = v]: an existing key keeps its position, a new key goes last. *)
Fixpoint set (d : list (K * V)) (k : K) (v : V) : list (K * V) :=
  match d with
  | [] => [(k, v)]
  | (k', v') :: d' =>
      if decide (k = k') then (k, v) :: d' else (k', v') :: set d' k v
  end.

(** [del d[k]] (the callers test [k in d] first). *)
Fixpoint del (d : list (K * V)) (k : K) : list (K * V) :=
  match d with
  | [] => []
  | (k', v') :: d' =>
      if decide (k = k') then d' else (k', v') :: del d' k
  end.

(** [k in d] *)
Definition mem (d : list (K * V)) (k : K) : bool :=
  match get d k with Some _ => true | None => false end.

(** [list(d.values())] *)
Definition values (d : list (K * V)) : list V := map snd d.

(** [d.keys()] *)
Definition keys (d : list (K * V)) : list K := map fst d.

(** [len(d)] *)
Definition len (d : list (K * V)) : nat := length d.
End Dict.
End PyDict.

(** ** Data model ([models.py]) *)

(** One entry of [JudgeScore.judges], as [add_judge_score] writes it. *)
Record Submission := mkSubmission {
  scores : option (gmap string Z);   (* 'scores': JSON object or null *)
  isKO : bool;                       (* 'isKO' *)
  koWinnerId : option Z;             (* 'koWinnerId': integer or null *)
  submittedAt : string               (* 'submittedAt' *)
}.

Inductive WinMethod := ko | points.

(** The dict returned by [calculate_result]; ['koVotes'] is only present in
    the knockout branch. *)
Record Result := mkResult {
  winnerId : option Z;
  winMethod : WinMethod;
  scoreA : Z;
  scoreB : Z;
  koVotes : option Z
}.

Record JudgeScore := mkJudgeScore {
  match_id : string;
  tournament_id : string;
  competitor_a_id : option Z;        (* IntegerField(null=True) *)
  competitor_b_id : option Z;
  judges : list (string * Submission);
  finalized : bool;
  result : option Result
}.

#[global] Instance WinMethod_eq_dec : EqDecision WinMethod.
Proof. solve_decision. Defined.
#[global] Instance Result_eq_dec : EqDecision Result.
Proof. solve_decision. Defined.

(** [judge_count] property: [len(self.judges)]. *)
Definition judge_count (self : JudgeScore) : nat := PyDict.len (judges self).

Definition with_judges (self : JudgeScore) (js : list (string * Submission))
  : JudgeScore :=
  mkJudgeScore (match_id self) (tournament_id self) (competitor_a_id self)
    (competitor_b_id self) js (finalized self) (result self).

(** [add_judge_score]: [self.judges[judge_id] = {...}]; the caller saves the
    returned row.  [now] is [timezone.now().isoformat()]. *)
Definition add_judge_score (self : JudgeScore) (judge_id : string)
    (sc : option (gmap string Z)) (is_ko : bool) (ko_winner_id : option Z)
    (now : string) : JudgeScore :=
  with_judges self
    (PyDict.set (judges self) judge_id
       (mkSubmission sc is_ko ko_winner_id now)).

(** [remove_judge_score]: the row after the call and the returned boolean. *)
Definition remove_judge_score (self : JudgeScore) (judge_id : string)
  : JudgeScore * bool :=
  if PyDict.mem (judges self) judge_id
  then (with_judges self (PyDict.del (judges self) judge_id), true)
  else (self, false).

(** ** The aggregator: [JudgeScore.calculate_result] *)

(** Python truthiness of [judge.get('koWinnerId')]: [None] and [0] are false. *)
Definition truthy_int (o : option Z) : bool :=
  match o with
  | Some z => negb (z =? 0)%Z
  | None => false
  end.

(** Python truthiness of [judge.get('scores')]: [None] and [{}] are false. *)
Definition truthy_scores (o : option (gmap string Z)) : bool :=
  match o with
  | Some s => negb (bool_decide (s = ∅))
  | None => false
  end.

(** Body of the first loop:
    [if judge.get('isKO') and judge.get('koWinnerId'):
         ko_votes[winner_id] = ko_votes.get(winner_id, 0) + 1] *)
Definition count_vote (ko_votes : list (Z * Z)) (judge : Submission)
  : list (Z * Z) :=
  if isKO judge && truthy_int (koWinnerId judge) then
    match koWinnerId judge with
    | Some winner_id =>
        PyDict.set ko_votes winner_id
          (default 0%Z (PyDict.get ko_votes winner_id) + 1)%Z
    | None => ko_votes
    end
  else ko_votes.

Definition tally_ko_votes (js : list Submission) : list (Z * Z) :=
  fold_left count_vote js [].

(** [for winner_id, votes in ko_votes.items(): if votes >= 2: return ...]:
    the first entry, in insertion order, with two votes or more. *)
Definition ko_majority (ko_votes : list (Z * Z)) : option (Z * Z) :=
  find (fun e => (2 <=? snd e)%Z) ko_votes.

(** [scores.get(key, 0)] *)
Definition scores_get (s : gmap string Z) (key : string) (dflt : Z) : Z :=
  default dflt (s !! key).

(** [judge_score_a] of the second loop. *)
Definition judge_score_a (s : gmap string Z) : Z :=
  (scores_get s "aggression" 0 + scores_get s "damage" 0
   + scores_get s "control" 0)%Z.

(** [judge_score_b = 11 - judge_score_a] *)
Definition judge_score_b (s : gmap string Z) : Z := (11 - judge_score_a s)%Z.

(** Body of the second loop, on the pair [(total_a, total_b)]. *)
Definition add_points (tot : Z * Z) (judge : Submission) : Z * Z :=
  if truthy_scores (scores judge) then
    match scores judge with
    | Some s => ((fst tot + judge_score_a s)%Z, (snd tot + judge_score_b s)%Z)
    | None => tot
    end
  else tot.

Definition point_totals (js : list Submission) : Z * Z :=
  fold_left add_points js (0%Z, 0%Z).

(** [is_winner_a = int(winner_id) == self.competitor_a_id] *)
Definition is_winner_a (self : JudgeScore) (winner_id : Z) : bool :=
  bool_decide (Some winner_id = competitor_a_id self).

Definition max_points_per_judge : Z := 11.
Definition total_max_points : Z := (max_points_per_judge * 3)%Z.

Definition calculate_result (self : JudgeScore) : Result :=
  let js := PyDict.values (judges self) in
  match ko_majority (tally_ko_votes js) with
  | Some (winner_id, votes) =>
      mkResult (Some winner_id) ko
        (if is_winner_a self winner_id then total_max_points else 0%Z)
        (if is_winner_a self winner_id then 0%Z else total_max_points)
        (Some votes)
  | None =>
      let '(total_a, total_b) := point_totals js in
      mkResult
        (if (total_a >? total_b)%Z then competitor_a_id self
         else competitor_b_id self)
        points total_a total_b None
  end.

(** ** The judge-scoring endpoints ([views.py]) *)

(** [serializer.validated_data] of [SubmitScoreSerializer]. *)
Record SubmitData := mkSubmitData {
  sd_judge_id : string;
  sd_tournament_id : string;
  sd_competitor_a_id : Z;
  sd_competitor_b_id : Z;
  sd_scores : option (gmap string Z);
  sd_is_ko : bool;
  sd_ko_winner_id : option Z
}.

(** What the bracket provider answered to [update_match]: its reply, or the
    text of the exception the view caught. *)
Inductive ChallongeResponse :=
| ChallongeReply (body : string)
| ChallongeError (msg : string).

(** The parsed [description] of one match attachment, as the recovery loop of
    [match_scores_details] sees it. *)
Record AttachmentData := mkAttachmentData {
  att_type : option string;                        (* data.get('type') *)
  att_competitorAId : option Z;
  att_competitorBId : option Z;
  att_judges : option (list (string * Submission)); (* absent: [{}] *)
  att_result : option Result                       (* data.get('result') *)
}.

Inductive Attachment :=
| AttNotJson                    (* json.loads raises JSONDecodeError: skipped *)
| AttRaises                     (* any other exception: the outer handler ends the loop *)
| AttObject (data : AttachmentData).

Inductive Body :=
| BodyErrors                                       (* serializer.errors *)
| BodyError (msg : string)                         (* {'error': msg} *)
| BodyFinalized (judgeCount : nat) (r : Result) (c : ChallongeResponse)
| BodyWaiting (judgeCount : nat) (finalized_flag : bool) (waiting_for : Z)
| BodyStatus (judgeCount : nat) (finalized_flag : bool) (r : option Result)
| BodyDetails (a b : option Z) (js : list (string * Submission))
    (judgeCount : nat) (finalized_flag : bool) (r : option Result)
| BodyDeleted
| BodyDetail (detail : string).      (* an error page of the framework itself *)

Record Response := mkResponse { status : nat; body : Body }.

Definition HTTP_200_OK : nat := 200.
Definition HTTP_400_BAD_REQUEST : nat := 400.
Definition HTTP_404_NOT_FOUND : nat := 404.
Definition HTTP_405_METHOD_NOT_ALLOWED : nat := 405.
Definition HTTP_500_INTERNAL_SERVER_ERROR : nat := 500.

(** The answer to a request whose view raises: nothing is caught. *)
Definition server_error : Response :=
  mkResponse HTTP_500_INTERNAL_SERVER_ERROR (BodyDetail "Server Error (500)").

Abbreviation Table := (gmap string JudgeScore).

(** What the database takes on INSERT.  The backend is chosen in the settings
    of the deployment, which are not among the sources, so it is a parameter:
    [integer_field_ok] tells whether an integer fits the column of an
    [IntegerField] (outside the range the INSERT raises), [char_field_ok]
    whether a string fits a [CharField(max_length=255)] (backends that
    enforce the length raise on a longer one). *)
Record Backend := mkBackend {
  integer_field_ok : Z → bool;
  char_field_ok : string → bool
}.

(** Whether the INSERT of [row] goes through. *)
Definition insert_ok (be : Backend) (row : JudgeScore) : bool :=
  char_field_ok be (match_id row) && char_field_ok be (tournament_id row)
  && from_option (integer_field_ok be) true (competitor_a_id row)
  && from_option (integer_field_ok be) true (competitor_b_id row).

(** The row [get_or_create] inserts when the match has none. *)
Definition new_row (mid : string) (data : SubmitData) : JudgeScore :=
  mkJudgeScore mid (sd_tournament_id data)
    (Some (sd_competitor_a_id data)) (Some (sd_competitor_b_id data))
    [] false None.

(** [JudgeScore.objects.get_or_create(match_id=..., defaults={...})]: the row
    of the match, or the new row; [None] when the INSERT of the new row
    raises. *)
Definition get_or_create (be : Backend) (db : Table) (mid : string)
    (data : SubmitData) : option JudgeScore :=
  match db !! mid with
  | Some score => Some score
  | None =>
      if insert_ok be (new_row mid data) then Some (new_row mid data) else None
  end.

(** [score.result = result; score.finalized = True] *)
Definition finalize (score : JudgeScore) (r : Result) : JudgeScore :=
  mkJudgeScore (match_id score) (tournament_id score) (competitor_a_id score)
    (competitor_b_id score) (judges score) true (Some r).

(** [match_scores], method GET. *)
Definition match_scores_get (db : Table) (mid : string) : Response :=
  match db !! mid with
  | Some score =>
      mkResponse HTTP_200_OK
        (BodyStatus (judge_count score) (finalized score) (result score))
  | None => mkResponse HTTP_200_OK (BodyStatus 0 false None)
  end.

(** [match_scores], method POST.  [req] is [None] when the serializer rejects
    the request body; [challonge] is the outcome of the bracket update, which
    only shows in the response. *)
Definition match_scores_post (be : Backend) (db : Table) (mid : string)
    (req : option SubmitData) (now : string) (challonge : ChallongeResponse)
  : Table * Response :=
  match req with
  | None => (db, mkResponse HTTP_400_BAD_REQUEST BodyErrors)
  | Some data =>
      match get_or_create be db mid data with
      | None => (db, server_error)
      | Some score =>
          let score :=
            add_judge_score score (sd_judge_id data) (sd_scores data)
              (sd_is_ko data) (sd_ko_winner_id data) now in
          if bool_decide (3 <= judge_count score) && negb (finalized score) then
            let r := calculate_result score in
            let score := finalize score r in
            (<[mid := score]> db,
             mkResponse HTTP_200_OK
               (BodyFinalized (judge_count score) r challonge))
          else
            (<[mid := score]> db,
             mkResponse HTTP_200_OK
               (BodyWaiting (judge_count score) false
                  (3 - Z.of_nat (judge_count score))%Z))
      end
  end.

(** [delete_judge_score] *)
Definition delete_judge_score (db : Table) (mid : string) (judge_id : string)
  : Table * Response :=
  match db !! mid with
  | None => (db, mkResponse HTTP_404_NOT_FOUND (BodyError "Score not found"))
  | Some score =>
      if finalized score then
        (db, mkResponse HTTP_400_BAD_REQUEST (BodyError "Match already finalized"))
      else
        let '(score', removed) := remove_judge_score score judge_id in
        if removed then (<[mid := score']> db, mkResponse HTTP_200_OK BodyDeleted)
        else (db, mkResponse HTTP_404_NOT_FOUND (BodyError "Score not found"))
  end.

Definition details_of (score : JudgeScore) : Response :=
  mkResponse HTTP_200_OK
    (BodyDetails (competitor_a_id score) (competitor_b_id score)
       (judges score) (judge_count score) (finalized score) (result score)).

Definition details_empty : Response :=
  mkResponse HTTP_200_OK (BodyDetails None None [] 0 false None).

(** The row [JudgeScore.objects.create] is called with for the parsed
    breakdown [data]. *)
Definition cached_row (mid tid : string) (data : AttachmentData) : JudgeScore :=
  mkJudgeScore mid tid (att_competitorAId data) (att_competitorBId data)
    (default [] (att_judges data)) true (att_result data).

(** The [for att in attachments] loop of [match_scores_details]: the row it
    caches from the first attachment of type ['judge_scores'], if it gets
    that far.  When the INSERT of that row raises, the outer handler ends the
    loop like any other exception. *)
Fixpoint recover (be : Backend) (mid tid : string) (atts : list Attachment)
  : option JudgeScore :=
  match atts with
  | [] => None
  | AttNotJson :: rest => recover be mid tid rest
  | AttRaises :: _ => None
  | AttObject data :: rest =>
      if bool_decide (att_type data = Some "judge_scores") then
        if insert_ok be (cached_row mid tid data)
        then Some (cached_row mid tid data) else None
      else recover be mid tid rest
  end.

(** [match_scores_details]; [fetched] is what [get_match_attachments]
    returns, [None] when the call raises. *)
Definition match_scores_details (be : Backend) (db : Table) (mid tid : string)
    (fetched : option (list Attachment)) : Table * Response :=
  match db !! mid with
  | Some score => (db, details_of score)
  | None =>
      if bool_decide (tid = "") then (db, details_empty)
      else
        match fetched with
        | None => (db, details_empty)
        | Some atts =>
            match recover be mid tid atts with
            | Some score => (<[mid := score]> db, details_of score)
            | None => (db, details_empty)
            end
        end
  end.

(** The public operations on the table of score records. *)
Inductive Request :=
| GetScores (mid : string)
| PostScores (mid : string) (req : option SubmitData) (now : string)
    (challonge : ChallongeResponse)
| DeleteScore (mid judge_id : string)
| GetDetails (mid tid : string) (fetched : option (list Attachment)).

(** The match a request is addressed to. *)
Definition request_match (rq : Request) : string :=
  match rq with
  | GetScores mid | PostScores mid _ _ _ | DeleteScore mid _
  | GetDetails mid _ _ => mid
  end.

Fixpoint has_slash (s : string) : bool :=
  match s with
  | EmptyString => false
  | String c rest => Ascii.eqb c "/"%char || has_slash rest
  end.

(** The [<str:...>] converter of the URL patterns: a non-empty path segment
    without a slash. *)
Definition str_segment (s : string) : bool :=
  negb (bool_decide (s = "")) && negb (has_slash s).

(** No URL pattern matches. *)
Definition not_found_page : Response :=
  mkResponse HTTP_404_NOT_FOUND (BodyDetail "Not Found").

(** The view of the matched pattern does not allow the method. *)
Definition method_not_allowed : Response :=
  mkResponse HTTP_405_METHOD_NOT_ALLOWED (BodyDetail "Method not allowed").

(** The dispatch of [tournaments/urls.py] for the scoring endpoints.  The
    pattern [matches/<str:match_id>/scores/details] comes before
    [matches/<str:match_id>/scores/<str:judge_id>], so a DELETE for the
    judge identifier "details" reaches [match_scores_details], which allows
    GET only. *)
Definition handle (be : Backend) (db : Table) (rq : Request)
  : Table * Response :=
  if negb (str_segment (request_match rq)) then (db, not_found_page)
  else
    match rq with
    | GetScores mid => (db, match_scores_get db mid)
    | PostScores mid req now challonge =>
        match_scores_post be db mid req now challonge
    | DeleteScore mid judge_id =>
        if bool_decide (judge_id = "details") then (db, method_not_allowed)
        else if str_segment judge_id then delete_judge_score db mid judge_id
        else (db, not_found_page)
    | GetDetails mid tid fetched => match_scores_details be db mid tid fetched
    end.

(** The table after a sequence of requests, starting from [db]. *)
Definition run (be : Backend) (db : Table) (rqs : list Request) : Table :=
  fold_left (fun d rq => fst (handle be d rq)) rqs db.

(** ** One POST, cut at its accesses to the database

    [match_scores] reads or inserts the row ([get_or_create]), saves it with
    the new submission ([add_judge_score] ends in [self.save()]), and, when
    its own copy is at quorum and not finalized, saves it again with the
    result.  Each [save()] writes the handler's copy of the whole row.
    Between these accesses another handler can run. *)

Record PostRequest := mkPostRequest {
  pr_data : SubmitData;
  pr_now : string;
  pr_challonge : ChallongeResponse
}.

Inductive PostState :=
| PostReceived                       (* body validated, nothing read yet *)
| PostLoaded (score : JudgeScore)    (* after [get_or_create] *)
| PostSaved (score : JudgeScore)     (* after [add_judge_score] *)
| PostAnswered (resp : Response).

Definition post_step (be : Backend) (mid : string) (rq : PostRequest)
    (db : Table) (st : PostState) : Table * PostState :=
  match st with
  | PostReceived =>
      match db !! mid with
      | Some score => (db, PostLoaded score)
      | None =>
          if insert_ok be (new_row mid (pr_data rq))
          then (<[mid := new_row mid (pr_data rq)]> db,
                PostLoaded (new_row mid (pr_data rq)))
          else (db, PostAnswered server_error)
      end
  | PostLoaded score =>
      let score :=
        add_judge_score score (sd_judge_id (pr_data rq)) (sd_scores (pr_data rq))
          (sd_is_ko (pr_data rq)) (sd_ko_winner_id (pr_data rq)) (pr_now rq) in
      (<[mid := score]> db, PostSaved score)
  | PostSaved score =>
      if bool_decide (3 <= judge_count score) && negb (finalized score) then
        let r := calculate_result score in
        let score := finalize score r in
        (<[mid := score]> db,
         PostAnswered
           (mkResponse HTTP_200_OK
              (BodyFinalized (judge_count score) r (pr_challonge rq))))
      else
        (db,
         PostAnswered
           (mkResponse HTTP_200_OK
              (BodyWaiting (judge_count score) false
                 (3 - Z.of_nat (judge_count score))%Z)))
  | PostAnswered _ => (db, st)
  end.

(** Two handlers for the same match; [schedule] says whose access to the
    database comes next: [false] the first handler's, [true] the second's. *)
Fixpoint interleave (be : Backend) (mid : string) (rq1 rq2 : PostRequest)
    (schedule : list bool) (db : Table) (st1 st2 : PostState)
  : Table * PostState * PostState :=
  match schedule with
  | [] => (db, st1, st2)
  | false :: rest =>
      let '(db', st1') := post_step be mid rq1 db st1 in
      interleave be mid rq1 rq2 rest db' st1' st2
  | true :: rest =>
      let '(db', st2') := post_step be mid rq2 db st2 in
      interleave be mid rq1 rq2 rest db' st1 st2'
  end.

(** The first handler runs to its answer, then the second. *)
Definition serial_schedule : list bool :=
  [false; false; false; true; true; true].

(** Both read, both save their submission, both check for quorum. *)
Definition racing_schedule : list bool :=
  [false; true; false; true; false; true].

(** ** Notions used in the statements *)

(** A knockout vote for the identifier [w], in the words of the data model:
    [isKnockout] is true and [knockoutWinner] is the (non-null) identifier
    [w]. *)
Definition is_ko_vote_for (w : Z) (j : Submission) : bool :=
  isKO j && bool_decide (koWinnerId j = Some w).

(** Number of knockout votes for [w] among the submissions [js]. *)
Definition ko_vote_count (js : list Submission) (w : Z) : Z :=
  Z.of_nat (length (List.filter (is_ko_vote_for w) js)).

(** No identifier has two knockout votes or more. *)
Definition no_ko_majority (js : list Submission) : Prop :=
  ∀ w, (ko_vote_count js w < 2)%Z.

(** [ko_votes.get(w, 0)] *)
Definition votes_of (d : list (Z * Z)) (w : Z) : Z :=
  default 0%Z (PyDict.get d w).

(** What the first loop maintains on [ko_votes]: distinct keys, none of them
    0, every count at least 1. *)
Definition tally_ok (d : list (Z * Z)) : Prop :=
  NoDup (PyDict.keys d) ∧ ∀ w v, (w, v) ∈ d → w ≠ 0%Z ∧ (1 <= v)%Z.

(** The submissions of a row, in the order of [self.judges]. *)
Definition submissions (self : JudgeScore) : list Submission :=
  PyDict.values (judges self).

(** The scores mappings that the point tally reads: those that are neither
    null nor empty. *)
Definition counted_scores (js : list Submission) : list (gmap string Z) :=
  omap (fun j => match scores j with
                 | Some s => if bool_decide (s = ∅) then None else Some s
                 | None => None
                 end) js.

Definition Zsum (l : list Z) : Z := foldr Z.add 0%Z l.

(** Sum of all the category point values of a scores mapping, whatever the
    category identifiers are. *)
Definition sum_category_values (s : gmap string Z) : Z :=
  map_fold (fun _ v acc => (v + acc)%Z) 0%Z s.

(** The three categories [calculate_result] reads. *)
Definition default_categories : gset string :=
  {[ "aggression"; "damage"; "control" ]}.

(** The identifier [w] gets its first knockout vote before the identifier [u]
    gets one: some initial part of the submissions holds a vote for [w] and
    none for [u]. *)
Definition voted_before (js : list Submission) (w u : Z) : Prop :=
  ∃ l1 l2, js = (l1 ++ l2)%list ∧
           (1 <= ko_vote_count l1 w)%Z ∧ ko_vote_count l1 u = 0%Z.

(** The row [match_scores] works on after [add_judge_score], [base] being
    the row [get_or_create] returned. *)
Definition submitted_row (base : JudgeScore) (data : SubmitData)
    (now : string) : JudgeScore :=
  add_judge_score base (sd_judge_id data)
    (sd_scores data) (sd_is_ko data) (sd_ko_winner_id data) now.

(** A response that reports an error to the caller. *)
Definition is_error (r : Response) : bool :=
  match body r with
  | BodyErrors | BodyError _ | BodyDetail _ => true
  | _ => false
  end.

(** The answer of a handler that finalized the match. *)
Definition answered_finalized (st : PostState) : Prop :=
  ∃ n r c, st = PostAnswered (mkResponse HTTP_200_OK (BodyFinalized n r c)).

(** One direction of the invariant, on one row. *)
Definition result_only_if_finalized (s : JudgeScore) : Prop :=
  result s ≠ None → finalized s = true.

(** The invariant of the data model on one row. *)
Definition result_iff_finalized (s : JudgeScore) : Prop :=
  result s ≠ None ↔ finalized s = true.

(** An attachment list whose breakdowns all carry a result, as the ones
    [match_scores] writes on finalization do. *)
Definition attachment_has_result (a : Attachment) : Prop :=
  match a with
  | AttObject data => att_type data = Some "judge_scores" → att_result data ≠ None
  | _ => True
  end.

Definition request_has_results (rq : Request) : Prop :=
  match rq with
  | GetDetails _ _ (Some atts) => Forall attachment_has_result atts
  | _ => True
  end.

(** ** Concrete rows and requests used as test inputs *)

Module Inputs.
Definition point_vote (ag dm ct : Z) : Submission :=
  mkSubmission
    (Some (<["aggression" := ag]> (<["damage" := dm]> (<["control" := ct]> ∅))))
    false None "2026-01-01T10:00:00".

Definition ko_vote (w : Z) : Submission :=
  mkSubmission None true (Some w) "2026-01-01T10:00:00".

Definition row (js : list (string * Submission)) : JudgeScore :=
  mkJudgeScore "m1" "t1" (Some 101%Z) (Some 202%Z) js false None.

(** No submission at all: totals 0-0. *)
Definition empty_row : JudgeScore := row [].

(** Two judges who scored, 6-5 and 5-6: totals 11-11. *)
Definition tied_row : JudgeScore :=
  row [("j1", point_vote 2 3 1); ("j2", point_vote 1 3 1)].

(** Three full scores for competitor A. *)
Definition sweep_row : JudgeScore :=
  row [("j1", point_vote 3 5 3); ("j2", point_vote 3 5 3);
       ("j3", point_vote 3 5 3)].

(** Two knockout votes for competitor B and one point score. *)
Definition ko_b_row : JudgeScore :=
  row [("j1", ko_vote 202); ("j2", point_vote 3 5 3); ("j3", ko_vote 202)].

(** Two knockout votes for an identifier that is in neither corner. *)
Definition foreign_ko_row : JudgeScore :=
  row [("j1", ko_vote 999); ("j2", ko_vote 999)].

(** Competitor A has identifier 0 and two knockout votes. *)
Definition zero_id_row : JudgeScore :=
  mkJudgeScore "m1" "t1" (Some 0%Z) (Some 202%Z)
    [("j1", ko_vote 0); ("j2", ko_vote 0)] false None.

(** Four submissions: two knockout votes for A, then two for B. *)
Definition double_ko_row : JudgeScore :=
  row [("j1", ko_vote 101); ("j2", ko_vote 101);
       ("j3", ko_vote 202); ("j4", ko_vote 202)].

(** One judge gives 12 points in a single category. *)
Definition over_max_row : JudgeScore :=
  row [("j1", mkSubmission (Some {["aggression" := 12%Z]}) false None "")].

(** One judge sends an empty scores object. *)
Definition empty_scores_row : JudgeScore :=
  row [("j1", mkSubmission (Some ∅) false None "")].


(** A finalized row with its three submissions and its result. *)
Definition finalized_row : JudgeScore :=
  finalize sweep_row (calculate_result sweep_row).
Definition finalized_db : gmap string JudgeScore := {["m1" := finalized_row]}.

Definition fourth_judge : SubmitData :=
  mkSubmitData "j4" "t1" 101 202 (Some {["damage" := 1%Z]}) false None.

(** A row still collecting, with one submission. *)
Definition open_row : JudgeScore := row [("j1", point_vote 3 5 3)].
Definition open_db : gmap string JudgeScore := {["m1" := open_row]}.

(** A breakdown attachment that carries no result. *)
Definition bare_attachment : Attachment :=
  AttObject (mkAttachmentData (Some "judge_scores") (Some 101%Z) (Some 202%Z)
               None None).

(** A backend with 32-bit integer columns that enforces the length of the
    character columns. *)
Definition strict_backend : Backend :=
  mkBackend (fun z => (-2147483648 <=? z)%Z && (z <=? 2147483647)%Z)
            (fun s => (String.length s <=? 255)%nat).

(** A row with two submissions, one short of quorum. *)
Definition two_judges_row : JudgeScore :=
  row [("j1", point_vote 3 5 3); ("j2", point_vote 3 5 3)].
Definition two_judges_db : gmap string JudgeScore := {["m1" := two_judges_row]}.

(** The submissions of a third and of a fourth judge, 11-0 and 0-11. *)
Definition third_post : PostRequest :=
  mkPostRequest
    (mkSubmitData "j3" "t1" 101 202 (scores (point_vote 3 5 3)) false None)
    "10:03" (ChallongeReply "ok").
Definition fourth_post : PostRequest :=
  mkPostRequest
    (mkSubmitData "j4" "t1" 101 202 (scores (point_vote 0 0 0)) false None)
    "10:04" (ChallongeReply "ok").

(** Three submissions for match "m1" and a recovery for match "m9" from the
    breakdown of a finalized row. *)
Definition full_session : list Request :=
  [ PostScores "m1"
      (Some (mkSubmitData "j1" "t1" 101 202 (scores (point_vote 3 5 3)) false None))
      "10:01" (ChallongeReply "ok");
    PostScores "m1"
      (Some (mkSubmitData "j2" "t1" 101 202 (scores (point_vote 3 5 3)) false None))
      "10:02" (ChallongeReply "ok");
    PostScores "m1" (Some (pr_data third_post)) "10:03" (ChallongeReply "ok");
    GetDetails "m9" "t1"
      (Some [AttNotJson;
             AttObject (mkAttachmentData (Some "judge_scores") (Some 101%Z)
                          (Some 202%Z) (Some (judges sweep_row))
                          (Some (calculate_result sweep_row)))]) ].
End Inputs.

(** ** The rest of the scoring workflow *)

(** The breakdown [match_scores] writes to the bracket provider right after
    finalization ([json.dumps] of [type], [judges], [competitorAId],
    [competitorBId], [result]), as [match_scores_details] parses it back. *)
Definition breakdown (score : JudgeScore) (r : Result) : AttachmentData :=
  mkAttachmentData (Some "judge_scores") (competitor_a_id score)
    (competitor_b_id score) (Some (judges score)) (Some r).

(** [str(n)] of a Python integer. *)
Definition str_int (z : Z) : string := NilZero.string_of_int (Z.to_int z).

(** The score string reported to the bracket provider by [match_scores]:
    [f"{result['scoreA']}-{result['scoreB']}"]. *)
Definition scores_csv (r : Result) : string :=
  str_int (scoreA r) ++ "-" ++ str_int (scoreB r).

(** The value stored under ['winMethod']. *)
Definition win_method_str (m : WinMethod) : string :=
  match m with ko => "ko" | points => "points" end.

(** [_send_discord_notification]: which display name is announced as the
    winner and which as the loser, as the pair [(winner, loser)]. *)
Definition announced_names {N : Type} (score : JudgeScore) (r : Result)
    (competitor_a competitor_b : N) : N * N :=
  if bool_decide (winnerId r = competitor_a_id score)
  then (competitor_a, competitor_b)
  else (competitor_b, competitor_a).

(** [post_match_to_discord]: ["Determine if KO"]. *)
Definition discord_is_ko (win_method : string) (score_a score_b : Z) : bool :=
  bool_decide (win_method = "ko") || (score_a =? 0)%Z || (score_b =? 0)%Z.

(** [post_match_to_discord]: [result_text]. *)
Definition result_text (win_method : string) (score_a score_b : Z) : string :=
  if discord_is_ko win_method score_a score_b then "KNOCKOUT!"
  else str_int score_a ++ " - " ++ str_int score_b.

(** [post_match_to_discord]: the embed colour, red for a knockout and green
    for a decision. *)
Definition embed_color (win_method : string) (score_a score_b : Z) : Z :=
  if discord_is_ko win_method score_a score_b then 0xFF0000%Z else 0x00FF00%Z.

(** [get_robot_image] of [services/discord.py].  [lower] is [str.lower]. *)
Section RobotImage.
Context {V : Type} (lower : string → string).

(** [for key, value in robot_images.items(): if key.lower() == lower_name] *)
Fixpoint first_lower_match (items : list (string * V)) (lower_name : string)
  : option V :=
  match items with
  | [] => None
  | (key, value) :: rest =>
      if bool_decide (lower key = lower_name) then Some value
      else first_lower_match rest lower_name
  end.

Definition get_robot_image (robot_images : option (list (string * V)))
    (robot_name : option string) : option V :=
  match robot_images, robot_name with
  | None, _ | Some [], _ => None            (* not robot_images *)
  | _, None | _, Some "" => None            (* not robot_name *)
  | Some images, Some name =>
      match PyDict.get images name with
      | Some value => Some value
      | None => first_lower_match images (lower name)
      end
  end.
End RobotImage.

(** [Event.get_default_scoring_criteria] of [models.py]. *)
Record Criterion := mkCriterion {
  crit_id : string;
  crit_name : string;
  crit_points : Z
}.

Definition default_scoring_criteria : list Criterion :=
  [ mkCriterion "aggression" "Aggression" 3;
    mkCriterion "damage" "Damage" 5;
    mkCriterion "control" "Control" 3 ].

(** [scoring_criteria] is the JSON list of the event, or null. *)
Definition get_default_scoring_criteria
    (scoring_criteria : option (list Criterion)) : list Criterion :=
  match scoring_criteria with
  | Some (c :: cs) => c :: cs
  | Some [] | None => default_scoring_criteria
  end.

(** A scores mapping filled in from a list of criteria: no other category,
    and each category between 0 and its points. *)
Definition within_criteria (criteria : list Criterion) (s : gmap string Z)
  : Prop :=
  ∀ k v, s !! k = Some v →
    ∃ c, c ∈ criteria ∧ crit_id c = k ∧ (0 <= v <= crit_points c)%Z.

(** ** The registries of [views.py]: active matches and repair timers *)

(** An [ActiveMatch] row without its key [(event_id, tournament_id)], which
    [unique_together] makes unique. *)
Record ActiveMatch := mkActiveMatch {
  am_match_id : string;
  am_started_at : string            (* auto_now *)
}.

(** [serializer.validated_data] of [SetActiveMatchSerializer]. *)
Record SetActiveMatchData := mkSetActiveMatchData {
  sam_tournament_id : string;
  sam_match_id : string
}.

Inductive RegistryBody :=
| RegErrors                                          (* serializer.errors *)
| RegActiveSet (eventId tournamentId matchId : string)
| RegTimerReset (eventId robotName resetAt : string)
| RegCleared (message : string).

Record RegistryResponse := mkRegistryResponse {
  reg_status : nat;
  reg_body : RegistryBody
}.

(** [Model.objects.filter(event_id=event_id)] followed by the loop that fills
    [result[second_key] = ...]. *)
Definition rows_of_event {A : Type} (db : gmap (string * string) A)
    (event_id : string) : gmap string A :=
  map_fold (fun key row result =>
              if bool_decide (fst key = event_id)
              then <[snd key := row]> result else result)
    ∅ db.

(** [active_matches] *)
Definition active_matches (db : gmap (string * string) ActiveMatch)
    (event_id : string) : gmap string ActiveMatch :=
  rows_of_event db event_id.

(** [set_active_match]; [update_or_create] writes [match_id] and, through
    [auto_now], [started_at]. *)
Definition set_active_match (db : gmap (string * string) ActiveMatch)
    (event_id : string) (req : option SetActiveMatchData) (now : string)
  : gmap (string * string) ActiveMatch * RegistryResponse :=
  match req with
  | None => (db, mkRegistryResponse HTTP_400_BAD_REQUEST RegErrors)
  | Some data =>
      (<[(event_id, sam_tournament_id data) :=
           mkActiveMatch (sam_match_id data) now]> db,
       mkRegistryResponse HTTP_200_OK
         (RegActiveSet event_id (sam_tournament_id data) (sam_match_id data)))
  end.

(** [clear_active_match] *)
Definition clear_active_match (db : gmap (string * string) ActiveMatch)
    (event_id tournament_id : string)
  : gmap (string * string) ActiveMatch * RegistryResponse :=
  (delete (event_id, tournament_id) db,
   mkRegistryResponse HTTP_200_OK (RegCleared "Active match cleared")).

(** [repair_resets]: robot name to [reset_at]. *)
Definition repair_resets (db : gmap (string * string) string)
    (event_id : string) : gmap string string :=
  rows_of_event db event_id.

(** [reset_repair_timer]; [req] is the validated [robot_name]. *)
Definition reset_repair_timer (db : gmap (string * string) string)
    (event_id : string) (req : option string) (now : string)
  : gmap (string * string) string * RegistryResponse :=
  match req with
  | None => (db, mkRegistryResponse HTTP_400_BAD_REQUEST RegErrors)
  | Some robot_name =>
      (<[(event_id, robot_name) := now]> db,
       mkRegistryResponse HTTP_200_OK (RegTimerReset event_id robot_name now))
  end.

(** [clear_repair_reset] *)
Definition clear_repair_reset (db : gmap (string * string) string)
    (event_id robot_name : string)
  : gmap (string * string) string * RegistryResponse :=
  (delete (event_id, robot_name) db,
   mkRegistryResponse HTTP_200_OK (RegCleared "Repair timer reset cleared")).

(** ** Notions used in the further statements *)

(** A POST of a valid body by [data], as a request. *)
Definition post_of (mid : string) (data : SubmitData) (now : string)
    (challonge : ChallongeResponse) : Request :=
  PostScores mid (Some data) now challonge.

(** The submission a POST of [data] at time [now] writes. *)
Definition submission_of (data : SubmitData) (now : string) : Submission :=
  mkSubmission (sd_scores data) (sd_is_ko data) (sd_ko_winner_id data) now.

(** Attachments the recovery loop steps over: text that is not JSON and
    objects of another type. *)
Definition skipped (a : Attachment) : Prop :=
  match a with
  | AttNotJson => True
  | AttRaises => False
  | AttObject data => att_type data ≠ Some "judge_scores"
  end.

(** ASCII lower-casing, to run [get_robot_image] on examples. *)
Definition ascii_lower (c : Ascii.ascii) : Ascii.ascii :=
  let n := Ascii.nat_of_ascii c in
  if (65 <=? n)%nat && (n <=? 90)%nat then Ascii.ascii_of_nat (n + 32) else c.

Fixpoint lower_ascii (s : string) : string :=
  match s with
  | EmptyString => EmptyString
  | String c rest => String (ascii_lower c) (lower_ascii rest)
  end.
(** ** Facts about insertion-ordered dictionaries *)

Module PyDictFacts.
Section Facts.
Context {K V : Type} `{EqDecision K}.
Implicit Types (d : list (K * V)) (k : K) (v : V).

Lemma get_set_eq d k v : PyDict.get (PyDict.set d k v) k = Some v.
Proof.
  induction d as [|[k' v'] d IH]; simpl.
  - by rewrite decide_True.
  - destruct (decide (k = k')) as [->|Hne]; simpl.
    + by rewrite decide_True.
    + by rewrite decide_False.
Qed.

Lemma get_set_ne d k k' v :
  k ≠ k' → PyDict.get (PyDict.set d k v) k' = PyDict.get d k'.
Proof.
  intros Hne. induction d as [|[k0 v0] d IH]; simpl.
  - by rewrite decide_False.
  - destruct (decide (k = k0)) as [->|Hk]; simpl.
    + by rewrite !decide_False.
    + by rewrite IH.
Qed.

Lemma get_Some_elem_of d k v : PyDict.get d k = Some v → (k, v) ∈ d.
Proof.
  induction d as [|[k' v'] d IH]; simpl; [done|].
  destruct (decide (k = k')) as [->|Hne].
  - intros [= ->]. left.
  - intros Hg. right. by apply IH.
Qed.

Lemma get_None_keys d k : PyDict.get d k = None ↔ k ∉ PyDict.keys d.
Proof.
  induction d as [|[k' v'] d IH]; simpl.
  - split; [intros _ | done]. apply not_elem_of_nil.
  - rewrite not_elem_of_cons. destruct (decide (k = k')) as [->|Hne].
    + split; [done | by intros [? _]].
    + rewrite IH. tauto.
Qed.

Lemma elem_of_get d k v :
  NoDup (PyDict.keys d) → (k, v) ∈ d → PyDict.get d k = Some v.
Proof.
  induction d as [|[k' v'] d IH]; simpl.
  - intros _ Hin. by apply elem_of_nil in Hin.
  - intros Hnd Hin. apply NoDup_cons in Hnd as [Hk' Hnd].
    apply elem_of_cons in Hin as [[= -> ->]|Hin].
    + by rewrite decide_True.
    + destruct (decide (k = k')) as [->|Hne]; [|by apply IH].
      exfalso. apply Hk'. apply list_elem_of_fmap. by exists (k', v).
Qed.

Lemma elem_of_set d k v k' v' :
  (k', v') ∈ PyDict.set d k v → (k', v') = (k, v) ∨ (k', v') ∈ d.
Proof.
  induction d as [|[k0 v0] d IH]; simpl.
  - intros Hin. apply list_elem_of_singleton in Hin. by left.
  - destruct (decide (k = k0)) as [->|Hne]; intros Hin;
      apply elem_of_cons in Hin as [Heq|Hin].
    + by left.
    + right. by right.
    + right. rewrite Heq. left.
    + destruct (IH Hin) as [?|?]; [by left | right; by right].
Qed.

Lemma keys_set d k v :
  PyDict.keys (PyDict.set d k v) =
  if PyDict.mem d k then PyDict.keys d else (PyDict.keys d ++ [k])%list.
Proof.
  unfold PyDict.mem. induction d as [|[k0 v0] d IH]; simpl; [done|].
  destruct (decide (k = k0)) as [->|Hne]; simpl; [done|].
  rewrite IH. by destruct (PyDict.get d k).
Qed.

Lemma NoDup_keys_set d k v :
  NoDup (PyDict.keys d) → NoDup (PyDict.keys (PyDict.set d k v)).
Proof.
  intros Hnd. rewrite keys_set. unfold PyDict.mem.
  destruct (PyDict.get d k) eqn:Hg; [done|].
  apply NoDup_app. split_and!; [done| |apply NoDup_singleton].
  intros x Hx Hx'. apply list_elem_of_singleton in Hx' as ->.
  by apply get_None_keys in Hg.
Qed.

Lemma length_set d k v :
  length (PyDict.set d k v) =
  if PyDict.mem d k then length d else S (length d).
Proof.
  unfold PyDict.mem. induction d as [|[k0 v0] d IH]; simpl; [done|].
  destruct (decide (k = k0)) as [->|Hne]; simpl; [done|].
  rewrite IH. by destruct (PyDict.get d k).
Qed.

Lemma get_del_ne d k k' :
  k ≠ k' → PyDict.get (PyDict.del d k) k' = PyDict.get d k'.
Proof.
  intros Hne. induction d as [|[k0 v0] d IH]; simpl; [done|].
  destruct (decide (k = k0)) as [->|Hk]; simpl.
  - by rewrite decide_False.
  - by rewrite IH.
Qed.

Lemma get_del_eq d k :
  NoDup (PyDict.keys d) → PyDict.get (PyDict.del d k) k = None.
Proof.
  induction d as [|[k0 v0] d IH]; simpl; [done|].
  intros Hnd. apply NoDup_cons in Hnd as [Hk0 Hnd].
  destruct (decide (k = k0)) as [->|Hk]; simpl.
  - by apply get_None_keys.
  - rewrite decide_False by done. by apply IH.
Qed.

Lemma keys_del_sublist d k : sublist (PyDict.keys (PyDict.del d k)) (PyDict.keys d).
Proof.
  induction d as [|[k0 v0] d IH]; simpl; [done|].
  destruct (decide (k = k0)) as [->|Hk]; simpl.
  - by apply sublist_cons.
  - by apply sublist_skip.
Qed.

Lemma NoDup_keys_del d k :
  NoDup (PyDict.keys d) → NoDup (PyDict.keys (PyDict.del d k)).
Proof. intros Hnd. eapply sublist_NoDup; [done | apply keys_del_sublist]. Qed.

Lemma length_del d k :
  is_Some (PyDict.get d k) → S (length (PyDict.del d k)) = length d.
Proof.
  induction d as [|[k0 v0] d IH]; simpl.
  - by intros [? ?].
  - destruct (decide (k = k0)) as [->|Hk]; simpl; [done|].
    intros Hs. by rewrite IH.
Qed.
End Facts.
End PyDictFacts.

(** ** The knockout tally *)

Section KoTally.
Implicit Types (d : list (Z * Z)) (j : Submission) (js : list Submission)
  (w v : Z).
Local Open Scope Z_scope.

Lemma tally_ok_nil : tally_ok [].
Proof.
  split; [apply NoDup_nil_2|]. intros w v Hin. by apply elem_of_nil in Hin.
Qed.

Lemma votes_of_nonneg d w : tally_ok d → 0 ≤ votes_of d w.
Proof.
  intros [_ Hd]. unfold votes_of.
  destruct (PyDict.get d w) as [v|] eqn:Hg; simpl; [|lia].
  apply PyDictFacts.get_Some_elem_of in Hg. apply Hd in Hg. lia.
Qed.

Lemma tally_ok_count_vote d j : tally_ok d → tally_ok (count_vote d j).
Proof.
  intros Hok. unfold count_vote.
  destruct (isKO j); simpl; [|done].
  destruct (koWinnerId j) as [w|]; simpl; [|done].
  destruct (Z.eqb_spec w 0) as [->|Hw]; simpl; [done|].
  split.
  - apply PyDictFacts.NoDup_keys_set, Hok.
  - intros w' v' Hin. apply PyDictFacts.elem_of_set in Hin as [[= -> ->]|Hin].
    + split; [done|]. fold (votes_of d w).
      pose proof (votes_of_nonneg d w Hok). lia.
    + by apply Hok.
Qed.

Lemma tally_ok_fold js d : tally_ok d → tally_ok (fold_left count_vote js d).
Proof.
  revert d. induction js as [|j js IH]; intros d Hok; simpl; [done|].
  by apply IH, tally_ok_count_vote.
Qed.

Lemma votes_of_count_vote d j w :
  w ≠ 0 →
  votes_of (count_vote d j) w =
  votes_of d w + (if is_ko_vote_for w j then 1 else 0).
Proof.
  intros Hw. unfold count_vote, is_ko_vote_for, truthy_int.
  destruct (isKO j); cbn [andb]; [|lia].
  destruct (koWinnerId j) as [u|].
  - case_bool_decide as Hu; simplify_eq.
    + destruct (Z.eqb_spec w 0) as [|_]; [done|]. cbn [negb].
      unfold votes_of. by rewrite PyDictFacts.get_set_eq.
    + destruct (Z.eqb_spec u 0) as [|_]; cbn [negb]; [lia|].
      unfold votes_of. rewrite PyDictFacts.get_set_ne by congruence. lia.
  - case_bool_decide; [done | lia].
Qed.

Lemma ko_vote_count_cons j js w :
  ko_vote_count (j :: js) w =
  (if is_ko_vote_for w j then 1 else 0) + ko_vote_count js w.
Proof.
  unfold ko_vote_count. simpl. destruct (is_ko_vote_for w j); simpl; lia.
Qed.

Lemma ko_vote_count_nonneg js w : 0 ≤ ko_vote_count js w.
Proof. unfold ko_vote_count. lia. Qed.

Lemma votes_of_fold js d w :
  w ≠ 0 →
  votes_of (fold_left count_vote js d) w = votes_of d w + ko_vote_count js w.
Proof.
  intros Hw. revert d. induction js as [|j js IH]; intros d; simpl.
  - unfold ko_vote_count. simpl. lia.
  - rewrite IH, votes_of_count_vote, ko_vote_count_cons by done. lia.
Qed.

(** Every entry of the finished tally is a non-zero identifier with its
    number of votes. *)
Lemma tally_entry js w v :
  (w, v) ∈ tally_ko_votes js → w ≠ 0 ∧ v = ko_vote_count js w ∧ 1 ≤ v.
Proof.
  intros Hin.
  pose proof (tally_ok_fold js [] tally_ok_nil) as [Hnd Hd].
  fold (tally_ko_votes js) in Hnd, Hd.
  destruct (Hd _ _ Hin) as [Hw Hv]. split_and!; [done| |done].
  pose proof (votes_of_fold js [] w Hw) as Hvotes.
  fold (tally_ko_votes js) in Hvotes. unfold votes_of in Hvotes.
  rewrite (PyDictFacts.elem_of_get _ _ _ Hnd Hin) in Hvotes.
  cbn [PyDict.get default from_option id] in Hvotes. lia.
Qed.

(** An identifier other than 0 with at least one vote has an entry. *)
Lemma tally_has_entry js w :
  w ≠ 0 → 1 ≤ ko_vote_count js w →
  (w, ko_vote_count js w) ∈ tally_ko_votes js.
Proof.
  intros Hw Hc. pose proof (votes_of_fold js [] w Hw) as Hvotes.
  fold (tally_ko_votes js) in Hvotes. unfold votes_of in Hvotes.
  cbn [PyDict.get] in Hvotes.
  destruct (PyDict.get (tally_ko_votes js) w) as [v|] eqn:Hg;
    cbn [default from_option id] in Hvotes.
  - apply PyDictFacts.get_Some_elem_of in Hg.
    by replace (ko_vote_count js w) with v by lia.
  - lia.
Qed.

Lemma ko_majority_Some js w v :
  ko_majority (tally_ko_votes js) = Some (w, v) →
  w ≠ 0 ∧ v = ko_vote_count js w ∧ 2 ≤ v.
Proof.
  intros Hf. apply find_some in Hf as [Hin Hv]. simpl in Hv.
  apply list_elem_of_In, tally_entry in Hin as (? & ? & ?).
  split_and!; [done..|]. lia.
Qed.

Lemma ko_majority_None js :
  ko_majority (tally_ko_votes js) = None ↔
  ∀ w, w ≠ 0 → ko_vote_count js w < 2.
Proof.
  split.
  - intros Hf w Hw. destruct (decide (ko_vote_count js w < 2)) as [|Hge]; [done|].
    assert ((w, ko_vote_count js w) ∈ tally_ko_votes js) as Hin
      by (apply tally_has_entry; [done | lia]).
    apply list_elem_of_In in Hin.
    pose proof (find_none _ _ Hf _ Hin) as Hv. simpl in Hv. lia.
  - intros Hall. destruct (ko_majority (tally_ko_votes js)) as [[w v]|] eqn:Hf;
      [|done].
    apply ko_majority_Some in Hf as (Hw & -> & Hv).
    specialize (Hall w Hw). lia.
Qed.

Lemma no_ko_majority_None js :
  no_ko_majority js → ko_majority (tally_ko_votes js) = None.
Proof. intros Hno. apply ko_majority_None. intros w _. apply Hno. Qed.
End KoTally.

(** ** The point tally *)

Section PointTally.
Implicit Types (j : Submission) (js : list Submission) (s : gmap string Z).
Local Open Scope Z_scope.

Lemma point_totals_from js a b :
  fold_left add_points js (a, b) =
  (a + Zsum (judge_score_a <$> counted_scores js),
   b + Zsum (judge_score_b <$> counted_scores js)).
Proof.
  revert a b. induction js as [|j js IH]; intros a b.
  - unfold Zsum. simpl. f_equal; lia.
  - cbn [fold_left]. destruct (add_points (a, b) j) as [a' b'] eqn:E.
    rewrite IH. revert E. unfold add_points, truthy_scores, counted_scores.
    cbn [omap list_omap]. destruct (scores j) as [s|].
    + destruct (bool_decide (s = ∅)); cbn [negb fst snd];
        intros [= <- <-]; [done|].
      unfold Zsum. cbn [fmap list_fmap foldr]. f_equal; lia.
    + by intros [= <- <-].
Qed.

Lemma point_totals_sums js :
  point_totals js =
  (Zsum (judge_score_a <$> counted_scores js),
   Zsum (judge_score_b <$> counted_scores js)).
Proof. unfold point_totals. by rewrite point_totals_from. Qed.

Lemma Zsum_a_plus_b (l : list (gmap string Z)) :
  Zsum (judge_score_a <$> l) + Zsum (judge_score_b <$> l) =
  11 * Z.of_nat (length l).
Proof.
  induction l as [|s l IH]; [done|].
  cbn [fmap list_fmap Zsum foldr length]. fold (Zsum (judge_score_a <$> l)).
  fold (Zsum (judge_score_b <$> l)). unfold judge_score_b at 1. lia.
Qed.

Lemma calculate_result_points self :
  ko_majority (tally_ko_votes (submissions self)) = None →
  calculate_result self =
  mkResult
    (if fst (point_totals (submissions self)) >? snd (point_totals (submissions self))
     then competitor_a_id self else competitor_b_id self)
    points (fst (point_totals (submissions self)))
    (snd (point_totals (submissions self))) None.
Proof.
  unfold calculate_result, submissions. intros ->.
  by destruct (point_totals (PyDict.values (judges self))).
Qed.

Lemma calculate_result_ko self w v :
  ko_majority (tally_ko_votes (submissions self)) = Some (w, v) →
  calculate_result self =
  mkResult (Some w) ko
    (if is_winner_a self w then 33 else 0)
    (if is_winner_a self w then 0 else 33) (Some v).
Proof. unfold calculate_result, submissions. by intros ->. Qed.
End PointTally.

(** ** Claims on the aggregator *)

Section AggregatorClaims.
Import Inputs.
Local Open Scope Z_scope.

Lemma no_votes_no_majority (js : list Submission) :
  Forall (fun j => isKO j = false) js → no_ko_majority js.
Proof.
  intros Hall w. unfold ko_vote_count.
  replace (List.filter (is_ko_vote_for w) js) with (@nil Submission); [simpl; lia|].
  induction Hall as [|j js Hj _ IH]; [done|].
  simpl. unfold is_ko_vote_for at 1. by rewrite Hj.
Qed.

(** C1, as stated, fails: with no submission at all the totals are 0-0 and
    the winner is competitor B (202), not competitor A (101); the same
    happens on the 11-11 tie of two judges. *)
Lemma tie_winner_counterexample :
  no_ko_majority (submissions empty_row) ∧
  point_totals (submissions empty_row) = (0, 0) ∧
  competitor_a_id empty_row = Some 101 ∧
  calculate_result empty_row = mkResult (Some 202) points 0 0 None ∧
  no_ko_majority (submissions tied_row) ∧
  point_totals (submissions tied_row) = (11, 11) ∧
  competitor_a_id tied_row = Some 101 ∧
  calculate_result tied_row = mkResult (Some 202) points 11 11 None.
Proof.
  split_and!; try (apply no_votes_no_majority; repeat constructor);
    vm_compute; reflexivity.
Qed.

(** C1 (amended): when no identifier has two knockout votes and the point
    totals of A and B are equal, [calculate_result] returns competitor B as
    the winner, with method points; with no submission the scores are 0-0. *)
Theorem tie_goes_to_competitor_b (self : JudgeScore) :
  no_ko_majority (submissions self) →
  fst (point_totals (submissions self)) = snd (point_totals (submissions self)) →
  winnerId (calculate_result self) = competitor_b_id self ∧
  winMethod (calculate_result self) = points ∧
  scoreA (calculate_result self) = scoreB (calculate_result self) ∧
  (judges self = [] →
   calculate_result self = mkResult (competitor_b_id self) points 0 0 None).
Proof.
  intros Hno Htie. apply no_ko_majority_None in Hno.
  rewrite (calculate_result_points self Hno). cbn [winnerId winMethod scoreA scoreB].
  rewrite Htie, Z.gtb_ltb, Z.ltb_irrefl. split_and!; try done.
  intros Hnil. unfold submissions. rewrite Hnil. reflexivity.
Qed.

Lemma tie_goes_to_competitor_b_witness :
  (winnerId (calculate_result tied_row) = competitor_b_id tied_row ∧
   winMethod (calculate_result tied_row) = points ∧
   scoreA (calculate_result tied_row) = scoreB (calculate_result tied_row)) ∧
  calculate_result empty_row = mkResult (competitor_b_id empty_row) points 0 0 None.
Proof.
  split.
  - destruct (tie_goes_to_competitor_b tied_row) as (Hw & Hm & Hs & _).
    + apply no_votes_no_majority. repeat constructor.
    + vm_compute. reflexivity.
    + exact (conj Hw (conj Hm Hs)).
  - destruct (tie_goes_to_competitor_b empty_row) as (_ & _ & _ & Hempty).
    + apply no_votes_no_majority. constructor.
    + vm_compute. reflexivity.
    + apply Hempty. reflexivity.
Defined.

(** C3, as stated, fails: two judges vote knockout for competitor A whose
    identifier is 0 (a non-null identifier); [judge.get('koWinnerId')] is
    falsy, no vote is counted and the result is a points result for B.  And
    with four submissions, two for 101 and then two for 202, competitor 202
    has two votes but the winner is 101, the first majority of the tally. *)
Lemma knockout_counterexample :
  competitor_a_id zero_id_row = Some 0 ∧
  ko_vote_count (submissions zero_id_row) 0 = 2 ∧
  calculate_result zero_id_row = mkResult (Some 202) points 0 0 None ∧
  ko_vote_count (submissions double_ko_row) 202 = 2 ∧
  calculate_result double_ko_row = mkResult (Some 101) ko 33 0 (Some 2).
Proof. split_and!; vm_compute; reflexivity. Qed.

Lemma ko_vote_count_two_ids (js : list Submission) (w w' : Z) :
  w ≠ w' → ko_vote_count js w + ko_vote_count js w' ≤ Z.of_nat (length js).
Proof.
  intros Hne. induction js as [|j js IH]; [done|].
  rewrite !ko_vote_count_cons. cbn [length]. unfold is_ko_vote_for.
  destruct (isKO j); cbn [andb]; [|lia].
  repeat case_bool_decide; simplify_eq; lia.
Qed.

Lemma find_first {A : Type} (f : A → bool) (l : list A) (x : A) :
  find f l = Some x →
  ∃ l1 l2, l = (l1 ++ x :: l2)%list ∧ f x = true ∧
           Forall (fun y => f y = false) l1.
Proof.
  induction l as [|a l IH]; simpl; [done|].
  destruct (f a) eqn:Hfa.
  - intros [= ->]. exists [], l. split_and!; [done | done | constructor].
  - intros Hf. destruct (IH Hf) as (l1 & l2 & -> & Hx & Hall).
    exists (a :: l1), l2. split_and!; [done | done | by constructor].
Qed.

Lemma tally_snoc (js : list Submission) (j : Submission) :
  tally_ko_votes (js ++ [j]) = count_vote (tally_ko_votes js) j.
Proof. unfold tally_ko_votes. by rewrite fold_left_app. Qed.

Lemma voted_before_snoc (js : list Submission) (j : Submission) (w u : Z) :
  voted_before js w u → voted_before (js ++ [j]) w u.
Proof.
  intros (l1 & l2 & -> & Hw & Hu). exists l1, (l2 ++ [j])%list.
  by rewrite app_assoc.
Qed.

Lemma tally_key_has_votes (js : list Submission) (k : Z) :
  k ∈ PyDict.keys (tally_ko_votes js) → k ≠ 0 ∧ 1 ≤ ko_vote_count js k.
Proof.
  unfold PyDict.keys. intros Hk. apply list_elem_of_fmap in Hk as ([k' v] & -> & Hin).
  apply tally_entry in Hin as (? & -> & ?). done.
Qed.

(** The keys of [ko_votes] are in the order of the identifiers' first
    votes. *)
Lemma tally_keys_order (js : list Submission) (ks1 ks2 : list Z) (k1 k2 : Z) :
  PyDict.keys (tally_ko_votes js) = (ks1 ++ k1 :: ks2)%list → k2 ∈ ks2 →
  voted_before js k1 k2.
Proof.
  revert ks1 ks2 k1 k2. induction js as [|j js IH] using rev_ind;
    intros ks1 ks2 k1 k2 Hkeys Hk2.
  - by destruct ks1.
  - rewrite tally_snoc in Hkeys. unfold count_vote in Hkeys.
    destruct (isKO j && truthy_int (koWinnerId j)) eqn:Hvote;
      [|by eapply voted_before_snoc, IH].
    destruct (koWinnerId j) as [w0|] eqn:Hw0;
      [|by eapply voted_before_snoc, IH].
    rewrite PyDictFacts.keys_set in Hkeys. unfold PyDict.mem in Hkeys.
    destruct (PyDict.get (tally_ko_votes js) w0) as [v0|] eqn:Hg;
      [by eapply voted_before_snoc, IH|].
    destruct ks2 as [|x ks2 _] using rev_ind; [by apply elem_of_nil in Hk2|].
    change (ks1 ++ k1 :: ks2 ++ [x])%list with (ks1 ++ (k1 :: ks2) ++ [x])%list
      in Hkeys.
    rewrite app_assoc in Hkeys. apply app_inj_tail in Hkeys as [Hkeys <-].
    apply elem_of_app in Hk2 as [Hk2|Hk2].
    + by eapply voted_before_snoc, IH.
    + apply list_elem_of_singleton in Hk2 as ->.
      exists js, [j]. split; [done|].
      assert (k1 ∈ PyDict.keys (tally_ko_votes js)) as Hk1
        by (rewrite Hkeys; apply elem_of_app; right; left).
      apply tally_key_has_votes in Hk1 as [Hk1 Hc1]. split; [done|].
      assert (w0 ≠ 0) as Hw0'.
      { apply andb_true_iff in Hvote as [_ Ht]. simpl in Ht.
        by destruct (Z.eqb_spec w0 0). }
      pose proof (votes_of_fold js [] w0 Hw0') as Hvotes.
      fold (tally_ko_votes js) in Hvotes. unfold votes_of in Hvotes.
      rewrite Hg in Hvotes. cbn [PyDict.get default from_option id] in Hvotes.
      pose proof (ko_vote_count_nonneg js w0). lia.
Qed.

(** C3 (amended): when an identifier other than 0 has two knockout votes or
    more, [calculate_result] returns method ko; the winner is an identifier
    other than 0 with two votes or more, the first one in the tally: it got
    its first vote before every other identifier with two votes got one; it
    is the given identifier when no other identifier has two votes, in
    particular when there are at most three submissions; koVotes is the
    winner's number of votes; the scores are 33-0 when the winner is
    competitor A and 0-33 otherwise.  Point submissions and the number of
    submissions play no role. *)
Theorem knockout_majority_wins (self : JudgeScore) (w : Z) :
  w ≠ 0 →
  2 ≤ ko_vote_count (submissions self) w →
  ∃ winner,
    winner ≠ 0 ∧ 2 ≤ ko_vote_count (submissions self) winner ∧
    calculate_result self =
      mkResult (Some winner) ko
        (if bool_decide (competitor_a_id self = Some winner) then 33 else 0)
        (if bool_decide (competitor_a_id self = Some winner) then 0 else 33)
        (Some (ko_vote_count (submissions self) winner)) ∧
    ((∀ u, u ≠ 0 → 2 ≤ ko_vote_count (submissions self) u → u = w) →
     winner = w) ∧
    ((judge_count self ≤ 3)%nat → winner = w) ∧
    (∀ u, u ≠ 0 → 2 ≤ ko_vote_count (submissions self) u → u ≠ winner →
          voted_before (submissions self) winner u).
Proof.
  intros Hw Hvotes.
  destruct (ko_majority (tally_ko_votes (submissions self))) as [[w' v]|] eqn:Hm.
  - pose proof (ko_majority_Some _ _ _ Hm) as (Hw' & -> & Hv).
    exists w'. split_and!; [done..| | | |].
    + rewrite (calculate_result_ko self _ _ Hm). unfold is_winner_a.
      f_equal; apply (f_equal (fun b : bool => if b then _ else _));
        apply bool_decide_ext; split; congruence.
    + intros Huniq. by apply Huniq.
    + intros Hlen. destruct (decide (w' = w)) as [|Hne]; [done|].
      pose proof (ko_vote_count_two_ids (submissions self) w' w Hne) as Hsum.
      unfold judge_count, PyDict.len in Hlen.
      unfold submissions, PyDict.values in Hsum. rewrite length_map in Hsum.
      unfold submissions, PyDict.values in Hv, Hvotes. lia.
    + intros u Hu Hcount Hne. unfold ko_majority in Hm.
      apply find_first in Hm as (l1 & l2 & Htally & _ & Hbefore).
      assert ((u, ko_vote_count (submissions self) u)
                ∈ tally_ko_votes (submissions self)) as Hin
        by (apply tally_has_entry; [done | lia]).
      rewrite Htally in Hin. apply elem_of_app in Hin as [Hin|Hin].
      * rewrite Forall_forall in Hbefore. specialize (Hbefore _ Hin).
        simpl in Hbefore. lia.
      * apply elem_of_cons in Hin as [[= ? ?]|Hin]; [done|].
        apply (tally_keys_order _ (PyDict.keys l1) (PyDict.keys l2)).
        -- rewrite Htally. unfold PyDict.keys. by rewrite map_app.
        -- unfold PyDict.keys. apply list_elem_of_fmap.
           by exists (u, ko_vote_count (submissions self) u).
  - exfalso. pose proof (proj1 (ko_majority_None _) Hm w Hw). lia.
Qed.

Lemma knockout_majority_wins_witness :
  (∃ winner,
     winner = 202 ∧ 2 ≤ ko_vote_count (submissions ko_b_row) winner ∧
     calculate_result ko_b_row =
       mkResult (Some winner) ko
         (if bool_decide (competitor_a_id ko_b_row = Some winner) then 33 else 0)
         (if bool_decide (competitor_a_id ko_b_row = Some winner) then 0 else 33)
         (Some (ko_vote_count (submissions ko_b_row) winner))) ∧
  (∃ winner,
     calculate_result double_ko_row =
       mkResult (Some winner) ko
         (if bool_decide (competitor_a_id double_ko_row = Some winner) then 33 else 0)
         (if bool_decide (competitor_a_id double_ko_row = Some winner) then 0 else 33)
         (Some (ko_vote_count (submissions double_ko_row) winner)) ∧
     (202 ≠ winner → voted_before (submissions double_ko_row) winner 202)).
Proof.
  split.
  - destruct (knockout_majority_wins ko_b_row 202)
      as (w & _ & Hv & Hr & _ & Hw & _).
    + lia.
    + vm_compute. discriminate.
    + exists w. split; [|exact (conj Hv Hr)].
      apply Hw. vm_compute. lia.
  - destruct (knockout_majority_wins double_ko_row 202)
      as (w & _ & _ & Hr & _ & _ & Hord).
    + lia.
    + vm_compute. discriminate.
    + exists w. split; [exact Hr|]. apply Hord; [lia|].
      vm_compute. discriminate.
Defined.

(** The scenario of the spec: two of three judges vote knockout for B. *)
Example knockout_scenario :
  calculate_result ko_b_row = mkResult (Some 202) ko 0 33 (Some 2).
Proof. vm_compute. reflexivity. Qed.

(** C4, as stated, fails: a judge who enters 12 points in one category gives
    competitor B the total 11 - 12 = -1. *)
Lemma negative_score_counterexample :
  calculate_result over_max_row = mkResult (Some 101) points 12 (-1) None ∧
  scoreB (calculate_result over_max_row) < 0.
Proof. split; vm_compute; reflexivity. Qed.

Lemma Zsum_nonneg (l : list Z) : Forall (fun z => 0 ≤ z) l → 0 ≤ Zsum l.
Proof. induction 1 as [|z l Hz _ IH]; [done|]. unfold Zsum in *. simpl. lia. Qed.

(** C4 (amended): a knockout result has the scores 33-0 when its winner is
    competitor A and 0-33 otherwise; a points result has non-negative scores
    when each judge's sum over the three categories read by the tally lies
    between 0 and 11.  The code does not check the category values. *)
Theorem scores_nonnegative (self : JudgeScore) :
  (winMethod (calculate_result self) = ko →
   ∃ w, winnerId (calculate_result self) = Some w ∧
        ((competitor_a_id self = Some w ∧
          scoreA (calculate_result self) = 33 ∧
          scoreB (calculate_result self) = 0) ∨
         (competitor_a_id self ≠ Some w ∧
          scoreA (calculate_result self) = 0 ∧
          scoreB (calculate_result self) = 33))) ∧
  ((∀ s, s ∈ counted_scores (submissions self) → 0 ≤ judge_score_a s ≤ 11) →
   0 ≤ scoreA (calculate_result self) ∧ 0 ≤ scoreB (calculate_result self)).
Proof.
  destruct (ko_majority (tally_ko_votes (submissions self))) as [[w v]|] eqn:Hm.
  - rewrite (calculate_result_ko self _ _ Hm).
    cbn [scoreA scoreB winMethod winnerId]. split.
    + intros _. exists w. split; [done|]. unfold is_winner_a.
      case_bool_decide as Ha; [left | right]; split_and!; congruence.
    + intros _. destruct (is_winner_a self w); lia.
  - rewrite (calculate_result_points self Hm). cbn [scoreA scoreB winMethod].
    split; [done|]. intros Hbound. rewrite point_totals_sums. cbn [fst snd].
    split; apply Zsum_nonneg, Forall_fmap, Forall_forall; intros s Hs; simpl;
      unfold judge_score_b; specialize (Hbound s Hs); lia.
Qed.

Lemma scores_nonnegative_witness :
  (∃ w, winnerId (calculate_result ko_b_row) = Some w ∧
        ((competitor_a_id ko_b_row = Some w ∧
          scoreA (calculate_result ko_b_row) = 33 ∧
          scoreB (calculate_result ko_b_row) = 0) ∨
         (competitor_a_id ko_b_row ≠ Some w ∧
          scoreA (calculate_result ko_b_row) = 0 ∧
          scoreB (calculate_result ko_b_row) = 33))) ∧
  (0 ≤ scoreA (calculate_result sweep_row) ∧ 0 ≤ scoreB (calculate_result sweep_row)).
Proof.
  split.
  - apply (proj1 (scores_nonnegative ko_b_row)). vm_compute. reflexivity.
  - apply (proj2 (scores_nonnegative sweep_row)).
    intros s Hs. vm_compute in Hs.
    repeat (apply elem_of_cons in Hs as [->|Hs]; [vm_compute; split; discriminate|]).
    by apply elem_of_nil in Hs.
Defined.

(** C5, as stated, fails: a judge whose scores mapping is the empty object
    carries a scores mapping, yet [if judge.get('scores')] skips it: the
    scores add up to 0, not to 1 × 11. *)
Lemma empty_scores_counterexample :
  no_ko_majority (submissions empty_scores_row) ∧
  Forall (fun j => is_Some (scores j)) (submissions empty_scores_row) ∧
  judge_count empty_scores_row = 1%nat ∧
  calculate_result empty_scores_row = mkResult (Some 202) points 0 0 None ∧
  scoreA (calculate_result empty_scores_row)
  + scoreB (calculate_result empty_scores_row) ≠ 1 * 11.
Proof.
  split_and!.
  - apply no_votes_no_majority. repeat constructor.
  - repeat constructor. by eexists.
  - reflexivity.
  - vm_compute. reflexivity.
  - vm_compute. discriminate.
Qed.

(** In a points result the two scores add up to 11 per counted judge. *)
Lemma points_sum_counted (self : JudgeScore) :
  ko_majority (tally_ko_votes (submissions self)) = None →
  scoreA (calculate_result self) + scoreB (calculate_result self) =
  11 * Z.of_nat (length (counted_scores (submissions self))).
Proof.
  intros Hm. rewrite (calculate_result_points self Hm). cbn [scoreA scoreB].
  rewrite point_totals_sums. cbn [fst snd]. apply Zsum_a_plus_b.
Qed.

Lemma counted_scores_all (js : list Submission) :
  (∀ j, j ∈ js → ∃ s, scores j = Some s ∧ s ≠ ∅) →
  length (counted_scores js) = length js.
Proof.
  induction js as [|j js IH]; intros Hall; [done|].
  unfold counted_scores in *. cbn [omap list_omap].
  destruct (Hall j) as (s & -> & Hs); [left|].
  rewrite bool_decide_eq_false_2 by done. cbn [length]. f_equal.
  apply IH. intros j' Hj'. apply Hall. by right.
Qed.

(** C5 (amended): when every judge's submission carries a non-empty scores
    mapping and no identifier has two knockout votes, the scores of the
    result add up to judgeCount × 11. *)
Theorem points_sum_per_judge (self : JudgeScore) :
  (∀ j, j ∈ submissions self → ∃ s, scores j = Some s ∧ s ≠ ∅) →
  no_ko_majority (submissions self) →
  scoreA (calculate_result self) + scoreB (calculate_result self) =
  Z.of_nat (judge_count self) * 11.
Proof.
  intros Hall Hno. rewrite points_sum_counted by by apply no_ko_majority_None.
  rewrite counted_scores_all by done.
  unfold submissions, PyDict.values, judge_count, PyDict.len.
  rewrite length_map. lia.
Qed.

Lemma points_sum_per_judge_witness :
  scoreA (calculate_result tied_row) + scoreB (calculate_result tied_row) =
  Z.of_nat (judge_count tied_row) * 11.
Proof.
  apply (points_sum_per_judge tied_row).
  - intros j Hj. vm_compute in Hj.
    repeat (apply elem_of_cons in Hj as [->|Hj];
            [eexists; split; [reflexivity | vm_compute; discriminate]|]).
    by apply elem_of_nil in Hj.
  - apply no_votes_no_majority. repeat constructor.
Defined.


Lemma sum_category_values_delete (s : gmap string Z) (k : string) :
  sum_category_values s =
  default 0 (s !! k) + sum_category_values (delete k s).
Proof.
  unfold sum_category_values. destruct (s !! k) as [x|] eqn:Hk.
  - rewrite (map_fold_delete_L _ _ k x s); [done| |done].
    intros j1 j2 z1 z2 y _ _ _. lia.
  - rewrite delete_id by done. simpl. lia.
Qed.

Lemma judge_score_a_default_schema (s : gmap string Z) :
  dom s ⊆ default_categories → judge_score_a s = sum_category_values s.
Proof.
  intros Hdom. unfold judge_score_a, scores_get.
  rewrite (sum_category_values_delete s "aggression").
  rewrite (sum_category_values_delete _ "damage").
  rewrite (sum_category_values_delete _ "control").
  rewrite !lookup_delete_ne by done.
  replace (delete "control" (delete "damage" (delete "aggression" s)))
    with (∅ : gmap string Z).
  - unfold sum_category_values. rewrite map_fold_empty. lia.
  - symmetry. apply map_empty. intros k.
    destruct (decide (k = "control")) as [->|Hc]; [apply lookup_delete_eq|].
    rewrite lookup_delete_ne by done.
    destruct (decide (k = "damage")) as [->|Hd]; [apply lookup_delete_eq|].
    rewrite lookup_delete_ne by done.
    destruct (decide (k = "aggression")) as [->|Ha]; [apply lookup_delete_eq|].
    rewrite lookup_delete_ne by done.
    apply not_elem_of_dom. intros Hk. apply Hdom in Hk.
    unfold default_categories in Hk.
    rewrite !elem_of_union, !elem_of_singleton in Hk. tauto.
Qed.



(** The scenario of the spec: three judges give 3/5/3 to competitor A. *)
Example sweep_scenario :
  calculate_result sweep_row = mkResult (Some 101) points 33 0 None.
Proof. vm_compute. reflexivity. Qed.

(** C10: the knockout winner is not checked against the two competitors of
    the row: two knockout votes for the identifier 999, which is neither
    competitor A (101) nor competitor B (202), make 999 the winner with
    method ko, scoreA = 0 and scoreB = 33. *)
Theorem foreign_knockout_winner :
  ∃ (self : JudgeScore) (w : Z),
    competitor_a_id self ≠ Some w ∧ competitor_b_id self ≠ Some w ∧
    2 ≤ ko_vote_count (submissions self) w ∧
    calculate_result self = mkResult (Some w) ko 0 33 (Some 2).
Proof.
  exists foreign_ko_row, 999. split_and!.
  - discriminate.
  - discriminate.
  - vm_compute. discriminate.
  - vm_compute. reflexivity.
Qed.

End AggregatorClaims.

(** ** The endpoints: what one request does to a row *)

Section Views.
Import Inputs.
Implicit Types (be : Backend) (db : gmap string JudgeScore)
  (score row base : JudgeScore) (mid tid judge_id : string).

Lemma submitted_row_flags base data now :
  finalized (submitted_row base data now) = finalized base ∧
  result (submitted_row base data now) = result base.
Proof. done. Qed.

Lemma submitted_row_judge base data now :
  PyDict.get (judges (submitted_row base data now)) (sd_judge_id data) =
  Some (mkSubmission (sd_scores data) (sd_is_ko data) (sd_ko_winner_id data) now).
Proof. apply PyDictFacts.get_set_eq. Qed.

(** A POST with a valid body whose [get_or_create] goes through always stores
    a row under [mid]: either the row with the new submission, or that row
    finalized with its result. *)
Lemma match_scores_post_stored be db mid data now challonge base :
  get_or_create be db mid data = Some base →
  let row := submitted_row base data now in
  (finalized row = false ∧ (3 ≤ judge_count row)%nat ∧
   match_scores_post be db mid (Some data) now challonge =
     (<[mid := finalize row (calculate_result row)]> db,
      mkResponse HTTP_200_OK
        (BodyFinalized (judge_count row) (calculate_result row) challonge)))
  ∨
  ((finalized row = true ∨ (judge_count row < 3)%nat) ∧
   match_scores_post be db mid (Some data) now challonge =
     (<[mid := row]> db,
      mkResponse HTTP_200_OK
        (BodyWaiting (judge_count row) false (3 - Z.of_nat (judge_count row))%Z))).
Proof.
  intros Hg row. unfold match_scores_post. rewrite Hg.
  fold (submitted_row base data now). fold row.
  case_bool_decide as Hq; cbn [andb].
  - destruct (finalized row) eqn:Hf; cbn [negb].
    + right. split; [by left | done].
    + left. done.
  - right. split; [right; lia | done].
Qed.

(** When the INSERT of the new row raises, nothing is stored and the answer
    is the error page of the framework. *)
Lemma match_scores_post_insert_raises be db mid data now challonge :
  get_or_create be db mid data = None →
  match_scores_post be db mid (Some data) now challonge = (db, server_error).
Proof. intros Hg. unfold match_scores_post. by rewrite Hg. Qed.

Lemma get_or_create_lookup be db mid data score :
  db !! mid = Some score → get_or_create be db mid data = Some score.
Proof. unfold get_or_create. by intros ->. Qed.

Lemma get_or_create_new be db mid data :
  db !! mid = None → insert_ok be (new_row mid data) = true →
  get_or_create be db mid data = Some (new_row mid data).
Proof. unfold get_or_create. by intros -> ->. Qed.

(** On a finalized row a POST is not rejected: it answers 200 with the
    "waiting" body and stores the row with the submission written into
    [judges]; [finalized] and [result] stay as they were. *)
Lemma match_scores_post_finalized be db mid data now challonge score :
  db !! mid = Some score → finalized score = true →
  match_scores_post be db mid (Some data) now challonge =
    (<[mid := submitted_row score data now]> db,
     mkResponse HTTP_200_OK
       (BodyWaiting (judge_count (submitted_row score data now)) false
          (3 - Z.of_nat (judge_count (submitted_row score data now)))%Z)) ∧
  finalized (submitted_row score data now) = true ∧
  result (submitted_row score data now) = result score.
Proof.
  intros Hl Hf.
  destruct (submitted_row_flags score data now) as [Hfin Hres].
  destruct (match_scores_post_stored be db mid data now challonge score
              (get_or_create_lookup be _ _ data _ Hl))
    as [(Hcontra & _ & _)|(_ & ->)]; [congruence|].
  split_and!; congruence.
Qed.

(** C2: the code contradicts the claim.  The row of match "m1" is finalized
    with the submissions of j1, j2 and j3; a POST by a fourth judge is
    answered 200 with the "waiting" body (finalized: False, waiting for -1
    judges), not with an error, and the stored row has the submission of j4
    in [judges].  Only [finalized] and [result] are left as they were. *)
Theorem submit_after_finalization_accepted be :
  finalized finalized_row = true ∧
  PyDict.keys (judges finalized_row) = ["j1"; "j2"; "j3"] ∧
  snd (match_scores_post be finalized_db "m1" (Some fourth_judge) "t4"
         (ChallongeReply "ok")) =
    mkResponse 200 (BodyWaiting 4 false (-1)) ∧
  is_error (snd (match_scores_post be finalized_db "m1" (Some fourth_judge) "t4"
                   (ChallongeReply "ok"))) = false ∧
  fst (match_scores_post be finalized_db "m1" (Some fourth_judge) "t4"
         (ChallongeReply "ok")) !! "m1" =
    Some (with_judges finalized_row
            (judges finalized_row ++
             [("j4", mkSubmission (sd_scores fourth_judge) false None "t4")])%list) ∧
  fst (match_scores_post be finalized_db "m1" (Some fourth_judge) "t4"
         (ChallongeReply "ok")) ≠ finalized_db.
Proof.
  assert (finalized_db !! "m1" = Some finalized_row) as Hl
    by apply lookup_singleton_eq.
  destruct (match_scores_post_finalized be finalized_db "m1" fourth_judge "t4"
              (ChallongeReply "ok") finalized_row Hl eq_refl) as (Hpost & _ & _).
  rewrite Hpost. cbn [fst snd].
  assert (submitted_row finalized_row fourth_judge "t4" =
          with_judges finalized_row
            (judges finalized_row ++
             [("j4", mkSubmission (sd_scores fourth_judge) false None "t4")])%list)
    as Hrow by reflexivity.
  rewrite Hrow. split_and!; [reflexivity.. | apply lookup_insert_eq |].
  intros Heq. apply (f_equal (fun d => judge_count <$> d !! "m1")) in Heq.
  rewrite lookup_insert_eq, Hl in Heq. discriminate.
Qed.

(** C7, as stated, fails: deleting the submission of a judge who has none in
    an open row is answered with the error 404 'Score not found'. *)
Lemma delete_missing_counterexample :
  open_db !! "m1" = Some open_row ∧ finalized open_row = false ∧
  PyDict.get (judges open_row) "j2" = None ∧
  delete_judge_score open_db "m1" "j2" =
    (open_db, mkResponse 404 (BodyError "Score not found")) ∧
  is_error (snd (delete_judge_score open_db "m1" "j2")) = true.
Proof.
  assert (open_db !! "m1" = Some open_row) as Hl by apply lookup_singleton_eq.
  unfold delete_judge_score. rewrite Hl. split_and!; reflexivity.
Qed.

(** C7 (amended): [delete_judge_score] answers 400 'Match already finalized'
    on a finalized row and changes nothing; on an open row, when the judge
    has no submission, [remove_judge_score] returns [False], nothing changes
    and the endpoint answers the error 404 'Score not found'; otherwise it
    stores the row without that judge's entry, every other judge's
    submission, [finalized] and [result] being unchanged, and a later POST
    by that judge stores the new submission. *)
Theorem delete_judge_score_spec be db mid judge_id score :
  db !! mid = Some score →
  NoDup (PyDict.keys (judges score)) →
  (finalized score = true →
   delete_judge_score db mid judge_id =
     (db, mkResponse 400 (BodyError "Match already finalized"))) ∧
  (finalized score = false → PyDict.get (judges score) judge_id = None →
   remove_judge_score score judge_id = (score, false) ∧
   delete_judge_score db mid judge_id =
     (db, mkResponse 404 (BodyError "Score not found"))) ∧
  (finalized score = false → is_Some (PyDict.get (judges score) judge_id) →
   ∃ row,
     remove_judge_score score judge_id = (row, true) ∧
     delete_judge_score db mid judge_id =
       (<[mid := row]> db, mkResponse 200 BodyDeleted) ∧
     PyDict.get (judges row) judge_id = None ∧
     (∀ j, j ≠ judge_id → PyDict.get (judges row) j = PyDict.get (judges score) j) ∧
     S (judge_count row) = judge_count score ∧
     finalized row = finalized score ∧ result row = result score ∧
     competitor_a_id row = competitor_a_id score ∧
     competitor_b_id row = competitor_b_id score ∧
     (∀ data now challonge, sd_judge_id data = judge_id →
        ∃ row',
          fst (match_scores_post be (<[mid := row]> db) mid (Some data) now
                 challonge)
            !! mid = Some row' ∧
          PyDict.get (judges row') judge_id =
            Some (mkSubmission (sd_scores data) (sd_is_ko data)
                    (sd_ko_winner_id data) now))).
Proof.
  intros Hl Hnd. unfold delete_judge_score, remove_judge_score, PyDict.mem.
  rewrite Hl. split_and!.
  - by intros ->.
  - intros -> Hg. by rewrite Hg.
  - intros Hf [sub Hg]. rewrite Hf, Hg.
    eexists. split_and!; [reflexivity | reflexivity | | | | exact Hf | reflexivity..|].
    + cbn [judges with_judges]. by apply PyDictFacts.get_del_eq.
    + intros j Hj. cbn [judges with_judges]. by apply PyDictFacts.get_del_ne.
    + unfold judge_count, PyDict.len. cbn [judges with_judges].
      apply PyDictFacts.length_del. by rewrite Hg.
    + intros data now challonge Hj.
      set (db' := <[mid := _]> db).
      destruct (match_scores_post_stored be db' mid data now challonge _
                  (get_or_create_lookup be db' mid data _ (lookup_insert_eq _ _ _)))
        as [(_ & _ & ->)|(_ & ->)]; cbn [fst]; eexists;
        (split; [apply lookup_insert_eq|]); cbn [judges finalize];
        rewrite <- Hj; apply submitted_row_judge.
Qed.

Lemma delete_judge_score_spec_witness :
  delete_judge_score finalized_db "m1" "j1" =
    (finalized_db, mkResponse 400 (BodyError "Match already finalized")) ∧
  (remove_judge_score open_row "j2" = (open_row, false) ∧
   delete_judge_score open_db "m1" "j2" =
     (open_db, mkResponse 404 (BodyError "Score not found"))) ∧
  (∃ row,
     delete_judge_score open_db "m1" "j1" =
       (<["m1" := row]> open_db, mkResponse 200 BodyDeleted) ∧
     PyDict.get (judges row) "j1" = None ∧
     finalized row = false ∧ result row = None).
Proof.
  split; [|split].
  - apply (delete_judge_score_spec strict_backend finalized_db "m1" "j1" finalized_row).
    + apply lookup_singleton_eq.
    + apply (bool_decide_unpack _). vm_compute. exact I.
    + reflexivity.
  - apply (delete_judge_score_spec strict_backend open_db "m1" "j2" open_row).
    + apply lookup_singleton_eq.
    + vm_compute. apply NoDup_singleton.
    + reflexivity.
    + reflexivity.
  - destruct (delete_judge_score_spec strict_backend open_db "m1" "j1" open_row)
      as (_ & _ & Hdel).
    + apply lookup_singleton_eq.
    + vm_compute. apply NoDup_singleton.
    + destruct Hdel as (r0 & _ & Hd & Hg & _ & _ & Hf & Hr & _).
      * reflexivity.
      * by eexists.
      * exists r0. split_and!; [exact Hd | exact Hg | exact Hf | exact Hr].
Defined.
End Views.

(** ** The invariant between [result] and [finalized] *)

Section Invariant.
Import Inputs.
Implicit Types (be : Backend) (db : gmap string JudgeScore) (rq : Request).

(** C8, as stated, fails: a GET of the details of an unknown match whose
    bracket record has a 'judge_scores' attachment without a result caches a
    row with [finalized = True] and [result = None]. *)
Lemma recovered_without_result_counterexample :
  run strict_backend ∅ [GetDetails "m9" "t1" (Some [bare_attachment])] !! "m9" =
    Some (mkJudgeScore "m9" "t1" (Some 101%Z) (Some 202%Z) [] true None) ∧
  ¬ result_iff_finalized
      (mkJudgeScore "m9" "t1" (Some 101%Z) (Some 202%Z) [] true None).
Proof.
  split.
  - vm_compute. reflexivity.
  - intros [_ H]. by apply H.
Qed.

Lemma recover_finalized be mid tid atts row :
  recover be mid tid atts = Some row → finalized row = true.
Proof.
  induction atts as [|[| |data] atts IH]; cbn [recover]; try done.
  case_bool_decide; [|done]. destruct (insert_ok _ _); [|done].
  by intros [= <-].
Qed.

Lemma recover_result be mid tid atts row :
  Forall attachment_has_result atts →
  recover be mid tid atts = Some row → result row ≠ None.
Proof.
  induction 1 as [|[| |data] atts Hhas _ IH]; cbn [recover]; try done.
  case_bool_decide as Hty; [|done]. destruct (insert_ok _ _); [|done].
  intros [= <-]. by apply Hhas.
Qed.

Lemma get_or_create_rows (P : JudgeScore → Prop) be db mid data base :
  (∀ mid data, P (new_row mid data)) →
  map_Forall (fun _ => P) db →
  get_or_create be db mid data = Some base → P base.
Proof.
  intros Hnew Hdb. unfold get_or_create.
  destruct (db !! mid) as [s|] eqn:Hl.
  - intros [= <-]. by apply (Hdb mid).
  - destruct (insert_ok _ _); [|done]. intros [= <-]. apply Hnew.
Qed.

(** Any property of rows that the new submission, the removal of a
    submission, finalization and (for the requests at hand) recovery
    establish or keep is kept by a request. *)
Lemma handle_rows (P : JudgeScore → Prop) be db rq :
  (∀ mid data, P (new_row mid data)) →
  (∀ row js, P row → P (with_judges row js)) →
  (∀ row r, P row → finalized row = false → P (finalize row r)) →
  (∀ mid tid atts row,
     rq = GetDetails mid tid (Some atts) → recover be mid tid atts = Some row →
     P row) →
  map_Forall (fun _ => P) db → map_Forall (fun _ => P) (fst (handle be db rq)).
Proof.
  intros Hnew Hjs Hfin Hrec Hdb. unfold handle.
  destruct (negb (str_segment (request_match rq))); [done|].
  destruct rq as [mid|mid req now ch|mid j|mid tid f]; cbn [fst].
  - done.
  - destruct req as [data|]; [|done].
    destruct (get_or_create be db mid data) as [base|] eqn:Hg;
      [|by rewrite match_scores_post_insert_raises].
    assert (P (submitted_row base data now)) as Hrow.
    { apply Hjs. by eapply get_or_create_rows. }
    destruct (match_scores_post_stored be db mid data now ch base Hg)
      as [(Hf & _ & ->)|(_ & ->)]; cbn [fst]; apply map_Forall_insert_2;
      auto.
  - case_bool_decide; [done|]. destruct (str_segment j); [|done].
    unfold delete_judge_score. destruct (db !! mid) as [s|] eqn:Hl; [|done].
    destruct (finalized s); [done|]. unfold remove_judge_score.
    destruct (PyDict.mem (judges s) j); [|done]. cbn [fst].
    apply map_Forall_insert_2; [|done]. apply Hjs. by apply (Hdb mid).
  - unfold match_scores_details. destruct (db !! mid) as [s|] eqn:Hl; [done|].
    case_bool_decide; [done|]. destruct f as [atts|]; [|done].
    destruct (recover be mid tid atts) as [row|] eqn:Hr; [|done]. cbn [fst].
    apply map_Forall_insert_2; [|done]. by eapply Hrec.
Qed.

Lemma run_rows (P : JudgeScore → Prop) (ok : Request → Prop) be rqs db :
  (∀ mid data, P (new_row mid data)) →
  (∀ row js, P row → P (with_judges row js)) →
  (∀ row r, P row → finalized row = false → P (finalize row r)) →
  (∀ mid tid atts row,
     ok (GetDetails mid tid (Some atts)) → recover be mid tid atts = Some row →
     P row) →
  Forall ok rqs →
  map_Forall (fun _ => P) db → map_Forall (fun _ => P) (run be db rqs).
Proof.
  intros Hnew Hjs Hfin Hrec Hok. revert db.
  induction Hok as [|rq rqs Hrq _ IH]; intros db Hdb; [done|].
  unfold run. cbn [fold_left]. apply IH.
  apply handle_rows; try done.
  intros mid tid atts row -> Hr. by eapply Hrec.
Qed.

(** C8 (amended): in every table reached from the empty one through the
    endpoints, a row with a result is finalized; and when every
    'judge_scores' attachment read by the recovery path carries a result (as
    those written on finalization do), a row has a result if and only if it
    is finalized. *)
Theorem result_iff_finalized_reachable be (rqs : list Request) :
  (∀ mid row, run be ∅ rqs !! mid = Some row → result_only_if_finalized row) ∧
  (Forall request_has_results rqs →
   ∀ mid row, run be ∅ rqs !! mid = Some row → result_iff_finalized row).
Proof.
  split.
  - apply (run_rows result_only_if_finalized (fun _ => True)).
    + intros mid data Hr. by destruct Hr.
    + intros row js Hrow. exact Hrow.
    + intros row r _ _ _. reflexivity.
    + intros mid tid atts row _ Hr _. by eapply recover_finalized.
    + by apply Forall_true.
    + apply map_Forall_empty.
  - intros Hok. apply (run_rows result_iff_finalized request_has_results).
    + intros mid data. split; [intros Hr; by destruct Hr | discriminate].
    + intros row js Hrow. exact Hrow.
    + intros row r _ _. split; [reflexivity | discriminate].
    + intros mid tid atts row Hhas Hr. split; intros _.
      * by eapply recover_finalized.
      * by eapply recover_result.
    + done.
    + apply map_Forall_empty.
Qed.

Lemma result_iff_finalized_reachable_witness :
  Forall request_has_results full_session ∧
  ∃ row1 row9,
    run strict_backend ∅ full_session !! "m1" = Some row1 ∧
    run strict_backend ∅ full_session !! "m9" = Some row9 ∧
    finalized row1 = true ∧ result row1 = Some (calculate_result sweep_row) ∧
    finalized row9 = true ∧ result row9 = Some (calculate_result sweep_row) ∧
    result_only_if_finalized row1 ∧ result_only_if_finalized row9 ∧
    result_iff_finalized row1 ∧ result_iff_finalized row9.
Proof.
  assert (Forall request_has_results full_session) as Hok.
  { repeat constructor; cbn; discriminate. }
  split; [exact Hok|].
  destruct (run strict_backend ∅ full_session !! "m1") as [row1|] eqn:H1;
    [|vm_compute in H1; discriminate].
  destruct (run strict_backend ∅ full_session !! "m9") as [row9|] eqn:H9;
    [|vm_compute in H9; discriminate].
  exists row1, row9.
  destruct (result_iff_finalized_reachable strict_backend full_session)
    as [Honly Hiff].
  split_and!; try reflexivity.
  - vm_compute in H1. by injection H1 as <-.
  - vm_compute in H1. by injection H1 as <-.
  - vm_compute in H9. by injection H9 as <-.
  - vm_compute in H9. by injection H9 as <-.
  - exact (Honly "m1" row1 H1).
  - exact (Honly "m9" row9 H9).
  - exact (Hiff Hok "m1" row1 H1).
  - exact (Hiff Hok "m9" row9 H9).
Defined.

(** Taken one at a time, the requests never finalize a row twice: a finalized
    row stays finalized and keeps its result, whatever the request. *)
Lemma finalized_row_keeps_result be db rq m s :
  db !! m = Some s → finalized s = true →
  ∃ s', fst (handle be db rq) !! m = Some s' ∧
        finalized s' = true ∧ result s' = result s.
Proof.
  intros Hl Hf. unfold handle.
  destruct (negb (str_segment (request_match rq))); [by exists s|].
  destruct rq as [mid|mid req now ch|mid j|mid tid f]; cbn [fst].
  - by exists s.
  - destruct req as [data|]; [|by exists s].
    destruct (decide (mid = m)) as [->|Hne].
    + destruct (match_scores_post_finalized be db m data now ch s Hl Hf)
        as (-> & Hf' & Hr'). cbn [fst]. eexists. split; [apply lookup_insert_eq|].
      by split.
    + destruct (get_or_create be db mid data) as [base|] eqn:Hg;
        [|rewrite match_scores_post_insert_raises by done; by exists s].
      destruct (match_scores_post_stored be db mid data now ch base Hg)
        as [(_ & _ & ->)|(_ & ->)]; cbn [fst]; exists s;
        by rewrite lookup_insert_ne.
  - case_bool_decide; [by exists s|]. destruct (str_segment j); [|by exists s].
    unfold delete_judge_score. destruct (decide (mid = m)) as [->|Hne].
    + rewrite Hl, Hf. by exists s.
    + destruct (db !! mid) as [s0|]; [|by exists s].
      destruct (finalized s0); [by exists s|].
      destruct (remove_judge_score s0 j) as [s1 [|]]; cbn [fst]; exists s;
        [by rewrite lookup_insert_ne | done].
  - unfold match_scores_details. destruct (decide (mid = m)) as [->|Hne].
    + rewrite Hl. by exists s.
    + destruct (db !! mid) as [s0|]; [by exists s|].
      case_bool_decide; [by exists s|]. destruct f as [atts|]; [|by exists s].
      destruct (recover be mid tid atts); cbn [fst]; exists s;
        [by rewrite lookup_insert_ne | done].
Qed.
End Invariant.

(** ** Two POSTs for the same match *)

Section Race.
Import Inputs.
Implicit Types (be : Backend) (db : gmap string JudgeScore)
  (rq : PostRequest) (st : PostState) (mid : string).

(** The three database accesses of one handler, run without interruption,
    are [match_scores_post]. *)
Lemma post_steps_refine be mid rq db :
  let s1 := post_step be mid rq db PostReceived in
  let s2 := post_step be mid rq (fst s1) (snd s1) in
  let s3 := post_step be mid rq (fst s2) (snd s2) in
  let out := match_scores_post be db mid (Some (pr_data rq)) (pr_now rq)
               (pr_challonge rq) in
  s3 = (fst out, PostAnswered (snd out)).
Proof.
  cbv zeta. unfold match_scores_post, get_or_create. cbn [post_step].
  destruct (db !! mid) as [score|] eqn:Hl; cbn [fst snd post_step].
  - destruct (bool_decide _ && negb _); cbn [fst snd];
      [by rewrite insert_insert_eq | done].
  - destruct (insert_ok _ _); cbn [fst snd post_step]; [|done].
    destruct (bool_decide _ && negb _); cbn [fst snd];
      by rewrite !insert_insert_eq.
Qed.

Lemma interleave_first be mid rq1 rq2 rest db st2 :
  interleave be mid rq1 rq2 (false :: false :: false :: rest) db
    PostReceived st2 =
  interleave be mid rq1 rq2 rest
    (fst (match_scores_post be db mid (Some (pr_data rq1)) (pr_now rq1)
            (pr_challonge rq1)))
    (PostAnswered
       (snd (match_scores_post be db mid (Some (pr_data rq1)) (pr_now rq1)
               (pr_challonge rq1))))
    st2.
Proof.
  pose proof (post_steps_refine be mid rq1 db) as H. cbv zeta in H.
  cbn [interleave].
  destruct (post_step be mid rq1 db PostReceived) as [d1 s1].
  cbn [fst snd] in H. destruct (post_step be mid rq1 d1 s1) as [d2 s2].
  cbn [fst snd] in H. destruct (post_step be mid rq1 d2 s2) as [d3 s3].
  by injection H as -> ->.
Qed.

Lemma interleave_second be mid rq1 rq2 rest db st1 :
  interleave be mid rq1 rq2 (true :: true :: true :: rest) db
    st1 PostReceived =
  interleave be mid rq1 rq2 rest
    (fst (match_scores_post be db mid (Some (pr_data rq2)) (pr_now rq2)
            (pr_challonge rq2)))
    st1
    (PostAnswered
       (snd (match_scores_post be db mid (Some (pr_data rq2)) (pr_now rq2)
               (pr_challonge rq2)))).
Proof.
  pose proof (post_steps_refine be mid rq2 db) as H. cbv zeta in H.
  cbn [interleave].
  destruct (post_step be mid rq2 db PostReceived) as [d1 s1].
  cbn [fst snd] in H. destruct (post_step be mid rq2 d1 s1) as [d2 s2].
  cbn [fst snd] in H. destruct (post_step be mid rq2 d2 s2) as [d3 s3].
  by injection H as -> ->.
Qed.

(** The serial schedule is one [match_scores_post] after the other. *)
Lemma serial_schedule_sequential be mid rq1 rq2 db :
  interleave be mid rq1 rq2 serial_schedule db PostReceived PostReceived =
  (fst (match_scores_post be
          (fst (match_scores_post be db mid (Some (pr_data rq1)) (pr_now rq1)
                  (pr_challonge rq1)))
          mid (Some (pr_data rq2)) (pr_now rq2) (pr_challonge rq2)),
   PostAnswered
     (snd (match_scores_post be db mid (Some (pr_data rq1)) (pr_now rq1)
             (pr_challonge rq1))),
   PostAnswered
     (snd (match_scores_post be
             (fst (match_scores_post be db mid (Some (pr_data rq1)) (pr_now rq1)
                     (pr_challonge rq1)))
             mid (Some (pr_data rq2)) (pr_now rq2) (pr_challonge rq2)))).
Proof.
  unfold serial_schedule. rewrite interleave_first, interleave_second.
  reflexivity.
Qed.

(** A POST that answers with the "finalized" body has stored the finalized
    row with the result it reports and with the submission of its judge. *)
Lemma post_finalized_answer_stored be db mid data now challonge n r c :
  snd (match_scores_post be db mid (Some data) now challonge) =
    mkResponse HTTP_200_OK (BodyFinalized n r c) →
  ∃ row,
    fst (match_scores_post be db mid (Some data) now challonge) !! mid =
      Some row ∧
    finalized row = true ∧ result row = Some r ∧
    is_Some (PyDict.get (judges row) (sd_judge_id data)).
Proof.
  destruct (get_or_create be db mid data) as [base|] eqn:Hg;
    [|by rewrite match_scores_post_insert_raises].
  destruct (match_scores_post_stored be db mid data now challonge base Hg)
    as [(_ & _ & ->)|(_ & ->)]; cbn [fst snd]; [|discriminate].
  intros [= _ <- _]. eexists. split; [apply lookup_insert_eq|].
  split_and!; [reflexivity | reflexivity |].
  cbn [judges finalize]. rewrite submitted_row_judge. by eexists.
Qed.

Lemma get_set_is_Some {V : Type} (d : list (string * V)) k k' v :
  is_Some (PyDict.get d k') → is_Some (PyDict.get (PyDict.set d k v) k').
Proof.
  intros Hs. destruct (decide (k' = k)) as [->|Hne].
  - rewrite PyDictFacts.get_set_eq. by eexists.
  - by rewrite PyDictFacts.get_set_ne.
Qed.

(** When the first of two POSTs handled one after the other finalizes the
    match, the second one does not: it answers with the "waiting" body, and
    the stored row is finalized, keeps the result the first one reported and
    holds the submissions of both judges. *)
Theorem serial_posts_finalize_once be mid rq1 rq2 db db' st1 st2 n r c :
  interleave be mid rq1 rq2 serial_schedule db PostReceived PostReceived =
    (db', st1, st2) →
  st1 = PostAnswered (mkResponse HTTP_200_OK (BodyFinalized n r c)) →
  ¬ answered_finalized st2 ∧
  ∃ row,
    db' !! mid = Some row ∧ finalized row = true ∧ result row = Some r ∧
    is_Some (PyDict.get (judges row) (sd_judge_id (pr_data rq1))) ∧
    is_Some (PyDict.get (judges row) (sd_judge_id (pr_data rq2))).
Proof.
  intros Hrun Hst1. rewrite serial_schedule_sequential in Hrun.
  remember (match_scores_post be db mid (Some (pr_data rq1)) (pr_now rq1)
              (pr_challonge rq1)) as out1 eqn:Ho1.
  remember (match_scores_post be (fst out1) mid (Some (pr_data rq2))
              (pr_now rq2) (pr_challonge rq2)) as out2 eqn:Ho2.
  injection Hrun as <- <- <-. injection Hst1 as H1. subst out1.
  destruct (post_finalized_answer_stored _ _ _ _ _ _ _ _ _ H1)
    as (row1 & Hl & Hf & Hr & Hj).
  destruct (match_scores_post_finalized be _ mid (pr_data rq2) (pr_now rq2)
              (pr_challonge rq2) row1 Hl Hf) as (Hpost & Hf' & Hr').
  rewrite Hpost in Ho2. subst out2. cbn [fst snd]. split.
  - intros (n2 & r2 & c2 & [=]).
  - eexists. split; [apply lookup_insert_eq|].
    split_and!; [exact Hf' | by rewrite Hr' | |].
    + by apply get_set_is_Some.
    + rewrite submitted_row_judge. by eexists.
Qed.

Lemma serial_posts_finalize_once_witness :
  ∃ db' st2 row,
    interleave strict_backend "m1" third_post fourth_post serial_schedule
      two_judges_db PostReceived PostReceived =
      (db',
       PostAnswered
         (mkResponse HTTP_200_OK
            (BodyFinalized 3 (calculate_result sweep_row) (ChallongeReply "ok"))),
       st2) ∧
    ¬ answered_finalized st2 ∧
    db' !! "m1" = Some row ∧ finalized row = true ∧
    result row = Some (calculate_result sweep_row) ∧
    PyDict.keys (judges row) = ["j1"; "j2"; "j3"; "j4"].
Proof.
  destruct (interleave strict_backend "m1" third_post fourth_post
              serial_schedule two_judges_db PostReceived PostReceived)
    as [[db' st1] st2] eqn:Hrun.
  assert (st1 = PostAnswered
            (mkResponse HTTP_200_OK
               (BodyFinalized 3 (calculate_result sweep_row)
                  (ChallongeReply "ok")))) as Hst1.
  { vm_compute in Hrun. injection Hrun as _ <- _. vm_compute. reflexivity. }
  destruct (serial_posts_finalize_once strict_backend "m1" third_post
              fourth_post two_judges_db db' st1 st2 _ _ _ Hrun Hst1)
    as (Hnot & row & Hl & Hf & Hr & _ & _).
  exists db', st2, row. rewrite <- Hst1.
  split_and!; [reflexivity | exact Hnot | exact Hl | exact Hf | exact Hr |].
  vm_compute in Hrun. injection Hrun as <- _ _.
  vm_compute in Hl. by injection Hl as <-.
Defined.

(** C9: the code contradicts the claim.  Nothing in [match_scores] serializes
    the handlers of one match.  The row of match "m1" holds the submissions
    of j1 and j2; the POSTs of j3 and of j4 both read it, both save their
    copy with their own submission, and both find three submissions on their
    copy and a false [finalized]: both run the finalization and answer with
    the "finalized" body, with the results 33-0 and 22-11.  The stored row
    ends with the result 22-11 written over 33-0, and without the submission
    of j3. *)
Theorem concurrent_posts_both_finalize be :
  ∃ db r3 r4 row,
    interleave be "m1" third_post fourth_post racing_schedule two_judges_db
      PostReceived PostReceived =
      (db,
       PostAnswered
         (mkResponse 200 (BodyFinalized 3 r3 (ChallongeReply "ok"))),
       PostAnswered
         (mkResponse 200 (BodyFinalized 3 r4 (ChallongeReply "ok")))) ∧
    answered_finalized
      (PostAnswered (mkResponse 200 (BodyFinalized 3 r3 (ChallongeReply "ok")))) ∧
    answered_finalized
      (PostAnswered (mkResponse 200 (BodyFinalized 3 r4 (ChallongeReply "ok")))) ∧
    (scoreA r3, scoreB r3) = (33, 0)%Z ∧
    (scoreA r4, scoreB r4) = (22, 11)%Z ∧
    db !! "m1" = Some row ∧
    finalized row = true ∧ result row = Some r4 ∧ r4 ≠ r3 ∧
    PyDict.keys (judges row) = ["j1"; "j2"; "j4"] ∧
    PyDict.get (judges row) "j3" = None.
Proof.
  eexists _, _, _, _. split; [vm_compute; reflexivity|].
  split; [by eexists _, _, _|]. split; [by eexists _, _, _|].
  split; [vm_compute; reflexivity|]. split; [vm_compute; reflexivity|].
  split; [vm_compute; reflexivity|].
  split_and!; try reflexivity. intros H.
  apply (f_equal scoreA) in H. vm_compute in H. discriminate.
Qed.
End Race.

(** ** Further properties of the score record and the aggregator *)

Section RecordProperties.
Import Inputs.
Local Open Scope Z_scope.
Implicit Types (self : JudgeScore) (js : list Submission).

Lemma del_set_fresh {K V : Type} `{EqDecision K} (d : list (K * V)) k v :
  PyDict.get d k = None → PyDict.del (PyDict.set d k v) k = d.
Proof.
  induction d as [|[k' v'] d IH]; simpl.
  - intros _. by rewrite decide_True.
  - destruct (decide (k = k')) as [->|Hne]; [done|]. intros Hg. simpl.
    rewrite decide_False by done. by rewrite IH.
Qed.

(** [add_judge_score] writes exactly one entry of [judges]: the judge's own,
    which afterwards holds the new submission; the other entries are as
    before; the number of judges grows by one for a new judge and stays for a
    judge who had already submitted; [finalized] and [result] are not
    touched. *)
Theorem add_judge_score_writes_one_entry self (judge_id : string)
    (sc : option (gmap string Z)) (is_ko : bool) (ko_winner_id : option Z)
    (now : string) :
  PyDict.get (judges (add_judge_score self judge_id sc is_ko ko_winner_id now))
    judge_id = Some (mkSubmission sc is_ko ko_winner_id now) ∧
  (∀ j, j ≠ judge_id →
     PyDict.get (judges (add_judge_score self judge_id sc is_ko ko_winner_id now)) j
     = PyDict.get (judges self) j) ∧
  judge_count (add_judge_score self judge_id sc is_ko ko_winner_id now) =
    (if PyDict.mem (judges self) judge_id then judge_count self
     else S (judge_count self)) ∧
  finalized (add_judge_score self judge_id sc is_ko ko_winner_id now) = finalized self ∧
  result (add_judge_score self judge_id sc is_ko ko_winner_id now) = result self.
Proof.
  unfold add_judge_score, judge_count, PyDict.len. cbn [judges with_judges].
  split_and!; [| |apply PyDictFacts.length_set|done..].
  - apply PyDictFacts.get_set_eq.
  - intros j Hj. apply PyDictFacts.get_set_ne. congruence.
Qed.

(** Adding the submission of a judge who had none and removing it again
    gives back the row as it was, and [remove_judge_score] returns [True]. *)
Theorem remove_after_add self (judge_id : string)
    (sc : option (gmap string Z)) (is_ko : bool) (ko_winner_id : option Z)
    (now : string) :
  PyDict.get (judges self) judge_id = None →
  remove_judge_score (add_judge_score self judge_id sc is_ko ko_winner_id now)
    judge_id = (self, true).
Proof.
  intros Hg. unfold remove_judge_score, add_judge_score, PyDict.mem.
  cbn [judges with_judges]. rewrite PyDictFacts.get_set_eq.
  rewrite del_set_fresh by done. by destruct self.
Qed.

Lemma remove_after_add_witness :
  remove_judge_score
    (add_judge_score open_row "j2" None true (Some 202) "t2") "j2"
  = (open_row, true).
Proof. apply (remove_after_add open_row "j2"). reflexivity. Defined.

(** Removing a judge's submission twice: the second call finds nothing,
    returns [False] and leaves the row alone. *)
Theorem remove_judge_score_twice self (judge_id : string) :
  NoDup (PyDict.keys (judges self)) →
  remove_judge_score (fst (remove_judge_score self judge_id)) judge_id =
  (fst (remove_judge_score self judge_id), false).
Proof.
  intros Hnd. unfold remove_judge_score at 2 3, PyDict.mem.
  destruct (PyDict.get (judges self) judge_id) eqn:Hg; cbn [fst].
  - unfold remove_judge_score, PyDict.mem. cbn [judges with_judges].
    by rewrite PyDictFacts.get_del_eq.
  - unfold remove_judge_score, PyDict.mem. by rewrite Hg.
Qed.

Lemma remove_judge_score_twice_witness :
  remove_judge_score (fst (remove_judge_score open_row "j1")) "j1" =
  (fst (remove_judge_score open_row "j1"), false).
Proof.
  apply (remove_judge_score_twice open_row "j1").
  vm_compute. apply NoDup_singleton.
Defined.

Lemma ko_vote_count_Permutation js js' w :
  js ≡ₚ js' → ko_vote_count js w = ko_vote_count js' w.
Proof.
  induction 1 as [|j l l' _ IH|j j' l|l l' l'' _ IH1 _ IH2]; [done|..].
  - rewrite !ko_vote_count_cons. lia.
  - rewrite !ko_vote_count_cons. lia.
  - congruence.
Qed.

Lemma Zsum_Permutation (l l' : list Z) : l ≡ₚ l' → Zsum l = Zsum l'.
Proof.
  unfold Zsum.
  induction 1 as [|z l l' _ IH|z z' l|l l' l'' _ IH1 _ IH2]; simpl; lia.
Qed.

Lemma point_totals_Permutation js js' :
  js ≡ₚ js' → point_totals js = point_totals js'.
Proof.
  intros Hp. rewrite !point_totals_sums. unfold counted_scores.
  f_equal; apply Zsum_Permutation; by rewrite Hp.
Qed.

(** With at most one majority the knockout outcome does not depend on the
    order of the submissions. *)
Lemma ko_majority_Permutation js js' :
  js ≡ₚ js' → (length js ≤ 3)%nat →
  ko_majority (tally_ko_votes js) = ko_majority (tally_ko_votes js').
Proof.
  intros Hp Hlen.
  destruct (ko_majority (tally_ko_votes js)) as [[w v]|] eqn:Hm.
  - apply ko_majority_Some in Hm as (Hw & -> & Hv).
    destruct (ko_majority (tally_ko_votes js')) as [[w' v']|] eqn:Hm'.
    + apply ko_majority_Some in Hm' as (Hw' & -> & Hv').
      rewrite <- (ko_vote_count_Permutation _ _ w' Hp) in Hv' |- *.
      destruct (decide (w = w')) as [->|Hne]; [done|].
      pose proof (ko_vote_count_two_ids js w w' Hne). lia.
    + pose proof (proj1 (ko_majority_None js') Hm' w Hw) as Hlt.
      rewrite <- (ko_vote_count_Permutation _ _ w Hp) in Hlt. lia.
  - symmetry. apply ko_majority_None. intros w Hw.
    rewrite <- (ko_vote_count_Permutation _ _ w Hp).
    by apply (proj1 (ko_majority_None js) Hm).
Qed.

(** With at most three submissions [calculate_result] does not depend on the
    order in which [self.judges] holds them: reordering the entries of the
    dict gives the same result. *)
Theorem calculate_result_order_independent self
    (reordered : list (string * Submission)) :
  reordered ≡ₚ judges self →
  (judge_count self ≤ 3)%nat →
  calculate_result (with_judges self reordered) = calculate_result self.
Proof.
  intros Hp Hlen. unfold calculate_result. cbn [judges with_judges competitor_a_id
    competitor_b_id]. unfold is_winner_a. cbn [competitor_a_id with_judges].
  assert (PyDict.values reordered ≡ₚ PyDict.values (judges self)) as Hv
    by (unfold PyDict.values; by rewrite Hp).
  rewrite (ko_majority_Permutation _ _ Hv).
  - by rewrite (point_totals_Permutation _ _ Hv).
  - rewrite Hv. unfold PyDict.values. rewrite length_map. exact Hlen.
Qed.

Lemma calculate_result_order_independent_witness :
  calculate_result
    (with_judges ko_b_row
       [("j2", point_vote 3 5 3); ("j3", ko_vote 202); ("j1", ko_vote 202)])
  = calculate_result ko_b_row.
Proof.
  apply (calculate_result_order_independent ko_b_row).
  - cbn [judges ko_b_row row].
    etrans; [|apply Permutation_swap]. apply Permutation_skip, Permutation_swap.
  - vm_compute. lia.
Defined.

Lemma win_method_points self :
  winMethod (calculate_result self) = points ↔
  ko_majority (tally_ko_votes (submissions self)) = None.
Proof.
  destruct (ko_majority (tally_ko_votes (submissions self))) as [[w v]|] eqn:Hm.
  - rewrite (calculate_result_ko self _ _ Hm). by split.
  - rewrite (calculate_result_points self Hm). by split.
Qed.

(** A points result over an odd number of counted judges (those with a
    non-empty scores mapping) is never a tie: the totals add up to an odd
    multiple of 11, and the winner is the competitor with strictly more
    points, A when scoreA > scoreB and B when scoreB > scoreA. *)
Theorem odd_quorum_has_no_tie self :
  winMethod (calculate_result self) = points →
  Nat.Odd (length (counted_scores (submissions self))) →
  scoreA (calculate_result self) ≠ scoreB (calculate_result self) ∧
  (scoreA (calculate_result self) > scoreB (calculate_result self) →
   winnerId (calculate_result self) = competitor_a_id self) ∧
  (scoreB (calculate_result self) > scoreA (calculate_result self) →
   winnerId (calculate_result self) = competitor_b_id self).
Proof.
  intros Hpts [k Hodd]. apply win_method_points in Hpts.
  pose proof (points_sum_counted self Hpts) as Hsum.
  rewrite (calculate_result_points self Hpts) in *.
  cbn [scoreA scoreB winnerId] in *. rewrite Hodd in Hsum.
  split_and!.
  - lia.
  - intros Hgt. by rewrite (proj2 (Z.gtb_gt _ _)).
  - intros Hgt. rewrite Z.gtb_ltb. by rewrite (proj2 (Z.ltb_ge _ _)) by lia.
Qed.

Lemma odd_quorum_has_no_tie_witness :
  scoreA (calculate_result sweep_row) ≠ scoreB (calculate_result sweep_row) ∧
  (scoreA (calculate_result sweep_row) > scoreB (calculate_result sweep_row) →
   winnerId (calculate_result sweep_row) = competitor_a_id sweep_row) ∧
  (scoreB (calculate_result sweep_row) > scoreA (calculate_result sweep_row) →
   winnerId (calculate_result sweep_row) = competitor_b_id sweep_row).
Proof.
  apply (odd_quorum_has_no_tie sweep_row).
  - vm_compute. reflexivity.
  - exists 1%nat. vm_compute. reflexivity.
Defined.
End RecordProperties.

(** ** Further properties of the scoring endpoints *)

Section EndpointProperties.
Import Inputs.
Implicit Types (be : Backend) (db : gmap string JudgeScore) (rq : Request)
  (row s : JudgeScore) (mid m : string).

Lemma stored_after_post be db mid data now challonge base :
  get_or_create be db mid data = Some base →
  ∃ row,
    fst (match_scores_post be db mid (Some data) now challonge) !! mid =
      Some row ∧
    judges row = judges (submitted_row base data now) ∧
    match_id row = match_id base ∧
    tournament_id row = tournament_id base ∧
    competitor_a_id row = competitor_a_id base ∧
    competitor_b_id row = competitor_b_id base.
Proof.
  intros Hg.
  destruct (match_scores_post_stored be db mid data now challonge base Hg)
    as [(_ & _ & ->)|(_ & ->)]; cbn [fst]; eexists;
    (split; [apply lookup_insert_eq | done]).
Qed.

(** A request only writes the row of the match it is addressed to. *)
Lemma handle_other_match be db rq m :
  m ≠ request_match rq → fst (handle be db rq) !! m = db !! m.
Proof.
  intros Hne. unfold handle.
  destruct (negb (str_segment (request_match rq))); [done|].
  destruct rq as [mid|mid req now ch|mid j|mid tid f];
    cbn [fst request_match] in *.
  - done.
  - destruct req as [data|]; [|done].
    destruct (get_or_create be db mid data) as [base|] eqn:Hg;
      [|by rewrite match_scores_post_insert_raises].
    destruct (match_scores_post_stored be db mid data now ch base Hg)
      as [(_ & _ & ->)|(_ & ->)]; cbn [fst]; by rewrite lookup_insert_ne.
  - case_bool_decide; [done|]. destruct (str_segment j); [|done].
    unfold delete_judge_score. destruct (db !! mid) as [s0|]; [|done].
    destruct (finalized s0); [done|].
    destruct (remove_judge_score s0 j) as [s1 [|]]; cbn [fst];
      [by rewrite lookup_insert_ne | done].
  - unfold match_scores_details. destruct (db !! mid) as [s0|]; [done|].
    case_bool_decide; [done|]. destruct f as [atts|]; [|done].
    destruct (recover be mid tid atts); cbn [fst];
      [by rewrite lookup_insert_ne | done].
Qed.

(** Requests only write the row of the match they are addressed to: a
    sequence of requests none of which is for match [m] leaves the row of
    [m], or its absence, as it was. *)
Theorem other_matches_untouched be (rqs : list Request) db m :
  Forall (fun rq => request_match rq ≠ m) rqs → run be db rqs !! m = db !! m.
Proof.
  intros Hall. revert db. induction Hall as [|rq rqs Hrq _ IH]; intros db; [done|].
  unfold run in *. cbn [fold_left]. rewrite IH.
  apply handle_other_match. congruence.
Qed.

Lemma other_matches_untouched_witness :
  run strict_backend open_db
    [PostScores "m2" (Some fourth_judge) "t" (ChallongeReply "ok");
     DeleteScore "m2" "j4"] !! "m1" = open_db !! "m1".
Proof.
  apply (other_matches_untouched strict_backend _ open_db "m1").
  repeat constructor; discriminate.
Defined.

Lemma handle_keeps_identifiers be db rq m s :
  db !! m = Some s →
  ∃ s', fst (handle be db rq) !! m = Some s' ∧
        match_id s' = match_id s ∧ tournament_id s' = tournament_id s ∧
        competitor_a_id s' = competitor_a_id s ∧
        competitor_b_id s' = competitor_b_id s.
Proof.
  intros Hl. destruct (decide (m = request_match rq)) as [->|Hne].
  2: { exists s. by rewrite handle_other_match. }
  unfold handle.
  destruct (negb (str_segment (request_match rq))); [by exists s|].
  destruct rq as [mid|mid req now ch|mid j|mid tid f];
    cbn [fst request_match] in *.
  - by exists s.
  - destruct req as [data|]; [|by exists s].
    destruct (stored_after_post be db mid data now ch s
                (get_or_create_lookup be _ _ data _ Hl))
      as (row & Hrow & _ & H1 & H2 & H3 & H4).
    by exists row.
  - case_bool_decide; [by exists s|]. destruct (str_segment j); [|by exists s].
    unfold delete_judge_score, remove_judge_score. rewrite Hl.
    destruct (finalized s); [by exists s|].
    destruct (PyDict.mem (judges s) j); cbn [fst]; [|by exists s].
    eexists. split; [apply lookup_insert_eq | done].
  - unfold match_scores_details. rewrite Hl. by exists s.
Qed.

(** No request deletes a row, and a row keeps the match, tournament and
    competitor identifiers it was created with, whatever identifiers later
    submissions carry. *)
Theorem identifiers_fixed_at_creation be (rqs : list Request) db m s :
  db !! m = Some s →
  ∃ s', run be db rqs !! m = Some s' ∧
        match_id s' = match_id s ∧ tournament_id s' = tournament_id s ∧
        competitor_a_id s' = competitor_a_id s ∧
        competitor_b_id s' = competitor_b_id s.
Proof.
  revert db s. induction rqs as [|rq rqs IH]; intros db s Hl.
  - by exists s.
  - destruct (handle_keeps_identifiers be db rq m s Hl)
      as (s1 & Hl1 & H1 & H2 & H3 & H4).
    destruct (IH _ _ Hl1) as (s2 & Hl2 & G1 & G2 & G3 & G4).
    exists s2. unfold run in *. cbn [fold_left].
    split_and!; [done|congruence..].
Qed.

Lemma identifiers_fixed_at_creation_witness :
  ∃ s', run strict_backend open_db
          [PostScores "m1"
             (Some (mkSubmitData "j2" "other" 7 8 None true (Some 8%Z)))
             "t" (ChallongeReply "ok")] !! "m1" = Some s' ∧
        match_id s' = match_id open_row ∧
        tournament_id s' = tournament_id open_row ∧
        competitor_a_id s' = competitor_a_id open_row ∧
        competitor_b_id s' = competitor_b_id open_row.
Proof.
  apply (identifiers_fixed_at_creation strict_backend _ open_db "m1" open_row).
  apply lookup_singleton_eq.
Defined.

(** Once a row is finalized, no sequence of requests takes it back to open
    or changes its result. *)
Theorem finalized_is_terminal be (rqs : list Request) db m s :
  db !! m = Some s → finalized s = true →
  ∃ s', run be db rqs !! m = Some s' ∧
        finalized s' = true ∧ result s' = result s.
Proof.
  revert db s. induction rqs as [|rq rqs IH]; intros db s Hl Hf.
  - by exists s.
  - destruct (finalized_row_keeps_result be db rq m s Hl Hf)
      as (s1 & Hl1 & Hf1 & Hr1).
    destruct (IH _ _ Hl1 Hf1) as (s2 & Hl2 & Hf2 & Hr2).
    exists s2. unfold run in *. cbn [fold_left]. split_and!; congruence.
Qed.

Lemma finalized_is_terminal_witness :
  ∃ s', run strict_backend finalized_db
          [DeleteScore "m1" "j1";
           PostScores "m1" (Some fourth_judge) "t" (ChallongeReply "ok")]
          !! "m1" = Some s' ∧
        finalized s' = true ∧ result s' = result finalized_row.
Proof.
  apply (finalized_is_terminal strict_backend _ finalized_db "m1" finalized_row).
  - apply lookup_singleton_eq.
  - reflexivity.
Defined.

Lemma handle_open_rows be db rq :
  map_Forall (fun _ row => finalized row = false →
                NoDup (PyDict.keys (judges row)) ∧ (judge_count row ≤ 2)%nat) db →
  map_Forall (fun _ row => finalized row = false →
                NoDup (PyDict.keys (judges row)) ∧ (judge_count row ≤ 2)%nat)
    (fst (handle be db rq)).
Proof.
  intros Hdb. unfold handle.
  destruct (negb (str_segment (request_match rq))); [done|].
  destruct rq as [mid|mid req now ch|mid j|mid tid f]; cbn [fst].
  - done.
  - destruct req as [data|]; [|done].
    destruct (get_or_create be db mid data) as [base|] eqn:Hg;
      [|by rewrite match_scores_post_insert_raises].
    assert (finalized base = false → NoDup (PyDict.keys (judges base)))
      as Hbase.
    { revert Hg. unfold get_or_create. destruct (db !! mid) as [s|] eqn:Hl.
      - intros [= <-] Hf. by apply (Hdb mid s Hl).
      - destruct (insert_ok _ _); [|done]. intros [= <-] _. apply NoDup_nil_2. }
    destruct (match_scores_post_stored be db mid data now ch base Hg)
      as [(_ & _ & ->)|(Hq & ->)]; cbn [fst]; apply map_Forall_insert_2;
      try done.
    intros Hf. split.
    + apply PyDictFacts.NoDup_keys_set, Hbase. exact Hf.
    + destruct Hq as [Hq|Hq]; [congruence | lia].
  - case_bool_decide; [done|]. destruct (str_segment j); [|done].
    unfold delete_judge_score. destruct (db !! mid) as [s|] eqn:Hl; [|done].
    destruct (finalized s) eqn:Hf; [done|]. unfold remove_judge_score, PyDict.mem.
    destruct (PyDict.get (judges s) j) eqn:Hg; [|done]. cbn [fst].
    apply map_Forall_insert_2; [|done]. intros _.
    destruct (Hdb mid s Hl Hf) as [Hnd Hc]. split.
    + by apply PyDictFacts.NoDup_keys_del.
    + unfold judge_count, PyDict.len in *. cbn [judges with_judges].
      pose proof (PyDictFacts.length_del (judges s) j) as Hlen.
      rewrite Hg in Hlen. specialize (Hlen (mk_is_Some _ _ eq_refl)). lia.
  - unfold match_scores_details. destruct (db !! mid) as [s|] eqn:Hl; [done|].
    case_bool_decide; [done|]. destruct f as [atts|]; [|done].
    destruct (recover be mid tid atts) as [row|] eqn:Hr; [|done]. cbn [fst].
    apply map_Forall_insert_2; [|done].
    intros Hf. apply recover_finalized in Hr. congruence.
Qed.

(** In every table reached from the empty one, a row that is still open
    holds at most two submissions, under distinct judge identifiers: the
    third distinct judge always finalizes in the same request. *)
Theorem open_rows_below_quorum be (rqs : list Request) m row :
  run be ∅ rqs !! m = Some row → finalized row = false →
  NoDup (PyDict.keys (judges row)) ∧ (judge_count row ≤ 2)%nat.
Proof.
  assert (∀ db,
    map_Forall (fun _ row => finalized row = false →
                  NoDup (PyDict.keys (judges row)) ∧ (judge_count row ≤ 2)%nat) db →
    map_Forall (fun _ row => finalized row = false →
                  NoDup (PyDict.keys (judges row)) ∧ (judge_count row ≤ 2)%nat)
      (run be db rqs)) as Hrun.
  { induction rqs as [|rq rqs IH]; intros db Hdb; [done|].
    unfold run in *. cbn [fold_left]. by apply IH, handle_open_rows. }
  intros Hl. apply (Hrun ∅ (map_Forall_empty _) m row Hl).
Qed.

Lemma open_rows_below_quorum_witness :
  NoDup (PyDict.keys (judges (submitted_row (new_row "m1" fourth_judge)
                                fourth_judge "t"))) ∧
  (judge_count (submitted_row (new_row "m1" fourth_judge) fourth_judge "t")
     ≤ 2)%nat.
Proof.
  apply (open_rows_below_quorum strict_backend
           [PostScores "m1" (Some fourth_judge) "t" (ChallongeReply "ok")] "m1").
  - vm_compute. reflexivity.
  - reflexivity.
Defined.
End EndpointProperties.

(** ** The URL dispatch *)

Section Routes.
Import Inputs.
Implicit Types (be : Backend) (db : gmap string JudgeScore) (s : JudgeScore)
  (mid : string).

(** A judge whose identifier is "details" can submit, but his submission
    cannot be removed: [delete_judge_score] would remove it, but the DELETE
    for that identifier is dispatched to [match_scores_details], which
    answers 405 and leaves the table as it is. *)
Theorem judge_named_details_cannot_be_removed be db mid s sub :
  str_segment mid = true →
  db !! mid = Some s → finalized s = false →
  PyDict.get (judges s) "details" = Some sub →
  snd (delete_judge_score db mid "details") = mkResponse 200 BodyDeleted ∧
  handle be db (DeleteScore mid "details") =
    (db, mkResponse 405 (BodyDetail "Method not allowed")) ∧
  run be db [DeleteScore mid "details"] = db.
Proof.
  intros Hseg Hl Hf Hg.
  assert (handle be db (DeleteScore mid "details") = (db, method_not_allowed))
    as Hh.
  { unfold handle. cbn [request_match]. rewrite Hseg. reflexivity. }
  split_and!.
  - unfold delete_judge_score, remove_judge_score, PyDict.mem.
    by rewrite Hl, Hf, Hg.
  - exact Hh.
  - unfold run. cbn [fold_left]. by rewrite Hh.
Qed.

Lemma judge_named_details_cannot_be_removed_witness :
  snd (delete_judge_score {["m1" := row [("details", point_vote 3 5 3)]]} "m1"
         "details") = mkResponse 200 BodyDeleted ∧
  handle strict_backend {["m1" := row [("details", point_vote 3 5 3)]]}
    (DeleteScore "m1" "details") =
    ({["m1" := row [("details", point_vote 3 5 3)]]},
     mkResponse 405 (BodyDetail "Method not allowed")) ∧
  run strict_backend {["m1" := row [("details", point_vote 3 5 3)]]}
    [DeleteScore "m1" "details"] =
    {["m1" := row [("details", point_vote 3 5 3)]]}.
Proof.
  apply (judge_named_details_cannot_be_removed strict_backend
           {["m1" := row [("details", point_vote 3 5 3)]]} "m1"
           (row [("details", point_vote 3 5 3)]) (point_vote 3 5 3)).
  - vm_compute. reflexivity.
  - apply lookup_singleton_eq.
  - reflexivity.
  - reflexivity.
Defined.
End Routes.

(** ** The submission flow, end to end *)

Section SubmissionFlow.
Import Inputs.
Implicit Types (be : Backend) (db : gmap string JudgeScore) (row s : JudgeScore)
  (mid tid : string) (data : SubmitData).

Lemma set_fresh {K V : Type} `{EqDecision K} (d : list (K * V)) k v :
  PyDict.get d k = None → PyDict.set d k v = (d ++ [(k, v)])%list.
Proof.
  induction d as [|[k' v'] d IH]; simpl; [done|].
  destruct (decide (k = k')) as [->|Hne]; [done|]. intros Hg. by rewrite IH.
Qed.

Lemma keys_set_present {K V : Type} `{EqDecision K} (d : list (K * V)) k v :
  is_Some (PyDict.get d k) →
  PyDict.keys (PyDict.set d k v) = PyDict.keys d.
Proof.
  intros [v0 Hg]. rewrite PyDictFacts.keys_set. unfold PyDict.mem.
  by rewrite Hg.
Qed.

(** The first submission for a match creates its row, with the identifiers of
    that submission, and is told to wait for two more judges. *)
Lemma post_creates_row be db mid data now challonge :
  db !! mid = None → insert_ok be (new_row mid data) = true →
  match_scores_post be db mid (Some data) now challonge =
    (<[mid := mkJudgeScore mid (sd_tournament_id data)
                 (Some (sd_competitor_a_id data)) (Some (sd_competitor_b_id data))
                 [(sd_judge_id data, submission_of data now)] false None]> db,
     mkResponse 200 (BodyWaiting 1 false 2)).
Proof.
  intros Hnone Hok. unfold match_scores_post, get_or_create.
  rewrite Hnone, Hok. reflexivity.
Qed.

(** The first submission for a match whose new row the database refuses (a
    competitor identifier outside the range of the integer column, say) is
    answered with the error page 500 and leaves no row. *)
Theorem first_post_insert_raises be db mid data now challonge :
  db !! mid = None → insert_ok be (new_row mid data) = false →
  match_scores_post be db mid (Some data) now challonge = (db, server_error) ∧
  fst (handle be db (PostScores mid (Some data) now challonge)) !! mid = None ∧
  is_error (snd (match_scores_post be db mid (Some data) now challonge)) = true.
Proof.
  intros Hnone Hbad.
  assert (match_scores_post be db mid (Some data) now challonge =
          (db, server_error)) as Hpost.
  { apply match_scores_post_insert_raises. unfold get_or_create.
    by rewrite Hnone, Hbad. }
  split_and!; [done | | by rewrite Hpost].
  unfold handle. destruct (negb _); [done|]. by rewrite Hpost.
Qed.

Lemma first_post_insert_raises_witness :
  match_scores_post strict_backend ∅ "m1"
    (Some (mkSubmitData "j1" "t1" 2147483648 202 None true (Some 202%Z)))
    "10:01" (ChallongeReply "ok") = (∅, mkResponse 500 (BodyDetail "Server Error (500)")) ∧
  fst (handle strict_backend ∅
         (PostScores "m1"
            (Some (mkSubmitData "j1" "t1" 2147483648 202 None true (Some 202%Z)))
            "10:01" (ChallongeReply "ok"))) !! "m1" = None ∧
  is_error
    (snd (match_scores_post strict_backend ∅ "m1"
            (Some (mkSubmitData "j1" "t1" 2147483648 202 None true (Some 202%Z)))
            "10:01" (ChallongeReply "ok"))) = true.
Proof.
  apply (first_post_insert_raises strict_backend ∅ "m1"
           (mkSubmitData "j1" "t1" 2147483648 202 None true (Some 202%Z))).
  - apply lookup_empty.
  - vm_compute. reflexivity.
Defined.

(** A new judge on an open row: the submission goes last; the row is
    finalized in the same request exactly when it then holds three
    submissions or more. *)
Lemma post_new_judge be db mid data now challonge s :
  db !! mid = Some s → finalized s = false →
  PyDict.get (judges s) (sd_judge_id data) = None →
  let row := with_judges s
               (judges s ++ [(sd_judge_id data, submission_of data now)])%list in
  match_scores_post be db mid (Some data) now challonge =
    if bool_decide (2 ≤ judge_count s)%nat
    then (<[mid := finalize row (calculate_result row)]> db,
          mkResponse 200
            (BodyFinalized (S (judge_count s)) (calculate_result row) challonge))
    else (<[mid := row]> db,
          mkResponse 200
            (BodyWaiting (S (judge_count s)) false
               (3 - Z.of_nat (S (judge_count s)))%Z)).
Proof.
  intros Hl Hf Hg row.
  assert (submitted_row s data now = row) as Hrow.
  { unfold submitted_row, add_judge_score.
    unfold row, submission_of. by rewrite set_fresh. }
  assert (judge_count row = S (judge_count s)) as Hc.
  { unfold row, judge_count, PyDict.len. cbn [judges with_judges].
    rewrite length_app. simpl. lia. }
  destruct (match_scores_post_stored be db mid data now challonge s
              (get_or_create_lookup be _ _ data _ Hl))
    as [(_ & Hq & ->)|([Hq|Hq] & ->)]; rewrite Hrow in *.
  - rewrite bool_decide_eq_true_2 by lia. cbn [finalize judge_count judges].
    by rewrite <- Hc.
  - unfold row in Hq. cbn [finalized with_judges] in Hq. congruence.
  - rewrite bool_decide_eq_false_2 by lia. by rewrite <- Hc.
Qed.

(** Three distinct judges submitting for a match without a row: the first
    two are told to wait for 2 and 1 more judges, the third gets the result
    of [calculate_result] on the three submissions in the order received,
    with the competitors named by the first submission; the table ends with
    that row, finalized, and GET reports it. *)
Theorem three_judges_finalize be db mid (d1 d2 d3 : SubmitData)
    (t1 t2 t3 : string) (c1 c2 c3 : ChallongeResponse) :
  db !! mid = None →
  insert_ok be (new_row mid d1) = true →
  sd_judge_id d1 ≠ sd_judge_id d2 →
  sd_judge_id d1 ≠ sd_judge_id d3 →
  sd_judge_id d2 ≠ sd_judge_id d3 →
  ∃ db1 db2 db3 row,
    row = mkJudgeScore mid (sd_tournament_id d1)
            (Some (sd_competitor_a_id d1)) (Some (sd_competitor_b_id d1))
            [(sd_judge_id d1, submission_of d1 t1);
             (sd_judge_id d2, submission_of d2 t2);
             (sd_judge_id d3, submission_of d3 t3)] false None ∧
    match_scores_post be db mid (Some d1) t1 c1 =
      (db1, mkResponse 200 (BodyWaiting 1 false 2)) ∧
    match_scores_post be db1 mid (Some d2) t2 c2 =
      (db2, mkResponse 200 (BodyWaiting 2 false 1)) ∧
    match_scores_post be db2 mid (Some d3) t3 c3 =
      (db3, mkResponse 200 (BodyFinalized 3 (calculate_result row) c3)) ∧
    db3 = <[mid := finalize row (calculate_result row)]> db ∧
    match_scores_get db3 mid =
      mkResponse 200 (BodyStatus 3 true (Some (calculate_result row))).
Proof.
  intros Hnone Hok H12 H13 H23.
  eexists _, _, _, _. split; [reflexivity|].
  split; [by apply post_creates_row|].
  split.
  { rewrite (post_new_judge be _ _ _ _ _ _ (lookup_insert_eq _ _ _)); [|done|].
    - cbn [judge_count PyDict.len judges length].
      rewrite bool_decide_eq_false_2 by lia.
      rewrite insert_insert_eq. reflexivity.
    - cbn [judges PyDict.get]. by rewrite decide_False by congruence. }
  split.
  { rewrite (post_new_judge be _ _ _ _ _ _ (lookup_insert_eq _ _ _)); [|done|].
    - cbn [judge_count PyDict.len judges with_judges length app].
      rewrite bool_decide_eq_true_2 by lia.
      rewrite insert_insert_eq. reflexivity.
    - cbn [judges with_judges PyDict.get app].
      rewrite !decide_False by congruence. done. }
  split; [reflexivity|].
  unfold match_scores_get. rewrite lookup_insert_eq. reflexivity.
Qed.

Lemma three_judges_finalize_witness :
  ∃ db1 db2 db3 row,
    row = mkJudgeScore "m1" "t1" (Some 101%Z) (Some 202%Z)
            [("j1", mkSubmission None true (Some 202%Z) "10:01");
             ("j2", mkSubmission None true (Some 202%Z) "10:02");
             ("j3", mkSubmission (Some {["damage" := 5%Z]}) false None "10:03")]
            false None ∧
    match_scores_post strict_backend ∅ "m1"
      (Some (mkSubmitData "j1" "t1" 101 202 None true (Some 202%Z))) "10:01"
      (ChallongeReply "ok") = (db1, mkResponse 200 (BodyWaiting 1 false 2)) ∧
    match_scores_post strict_backend db1 "m1"
      (Some (mkSubmitData "j2" "t1" 101 202 None true (Some 202%Z))) "10:02"
      (ChallongeReply "ok") = (db2, mkResponse 200 (BodyWaiting 2 false 1)) ∧
    match_scores_post strict_backend db2 "m1"
      (Some (mkSubmitData "j3" "t1" 101 202 (Some {["damage" := 5%Z]}) false None))
      "10:03" (ChallongeReply "ok") =
      (db3, mkResponse 200 (BodyFinalized 3 (calculate_result row)
                              (ChallongeReply "ok"))) ∧
    db3 = <["m1" := finalize row (calculate_result row)]> ∅ ∧
    match_scores_get db3 "m1" =
      mkResponse 200 (BodyStatus 3 true (Some (calculate_result row))).
Proof.
  apply (three_judges_finalize strict_backend ∅ "m1"
           (mkSubmitData "j1" "t1" 101 202 None true (Some 202%Z))
           (mkSubmitData "j2" "t1" 101 202 None true (Some 202%Z))
           (mkSubmitData "j3" "t1" 101 202 (Some {["damage" := 5%Z]}) false None)).
  - apply lookup_empty.
  - vm_compute. reflexivity.
  - discriminate.
  - discriminate.
  - discriminate.
Defined.

(** A judge who submits again on an open row replaces his own entry in
    place: the order and number of the entries stay, the other entries are
    untouched, and (the row being below quorum) the request does not
    finalize. *)
Theorem resubmission_replaces be db mid data now challonge s :
  db !! mid = Some s → finalized s = false →
  (judge_count s ≤ 2)%nat →
  is_Some (PyDict.get (judges s) (sd_judge_id data)) →
  ∃ row,
    match_scores_post be db mid (Some data) now challonge =
      (<[mid := row]> db,
       mkResponse 200
         (BodyWaiting (judge_count s) false (3 - Z.of_nat (judge_count s))%Z)) ∧
    PyDict.keys (judges row) = PyDict.keys (judges s) ∧
    PyDict.get (judges row) (sd_judge_id data) = Some (submission_of data now) ∧
    (∀ j, j ≠ sd_judge_id data →
       PyDict.get (judges row) j = PyDict.get (judges s) j) ∧
    finalized row = false ∧ result row = result s.
Proof.
  intros Hl Hf Hc Hsome. exists (submitted_row s data now).
  assert (judges (submitted_row s data now) =
          PyDict.set (judges s) (sd_judge_id data) (submission_of data now))
    as Hjs by done.
  assert (judge_count (submitted_row s data now) = judge_count s) as Hcount.
  { unfold judge_count, PyDict.len. rewrite Hjs, PyDictFacts.length_set.
    unfold PyDict.mem. by destruct Hsome as [v ->]. }
  destruct (submitted_row_flags s data now) as [Hfin Hres].
  split_and!.
  - destruct (match_scores_post_stored be db mid data now challonge s
                (get_or_create_lookup be _ _ data _ Hl))
      as [(_ & Hq & _)|(_ & ->)]; [lia|]. by rewrite Hcount.
  - rewrite Hjs. by apply keys_set_present.
  - rewrite Hjs. apply PyDictFacts.get_set_eq.
  - intros j Hj. rewrite Hjs. apply PyDictFacts.get_set_ne. congruence.
  - congruence.
  - done.
Qed.

Lemma resubmission_replaces_witness :
  ∃ row,
    match_scores_post strict_backend open_db "m1"
      (Some (mkSubmitData "j1" "t1" 101 202 None true (Some 101%Z))) "10:05"
      (ChallongeReply "ok") =
      (<["m1" := row]> open_db,
       mkResponse 200
         (BodyWaiting (judge_count open_row) false
            (3 - Z.of_nat (judge_count open_row))%Z)) ∧
    PyDict.keys (judges row) = PyDict.keys (judges open_row) ∧
    PyDict.get (judges row) "j1" =
      Some (mkSubmission None true (Some 101%Z) "10:05") ∧
    (∀ j, j ≠ "j1" → PyDict.get (judges row) j = PyDict.get (judges open_row) j) ∧
    finalized row = false ∧ result row = result open_row.
Proof.
  apply (resubmission_replaces strict_backend open_db "m1"
           (mkSubmitData "j1" "t1" 101 202 None true (Some 101%Z))).
  - apply lookup_singleton_eq.
  - reflexivity.
  - vm_compute. lia.
  - by eexists.
Defined.

(** After a POST with a valid body whose [get_or_create] goes through, GET
    reports the judge count the POST answered with, and a result exactly
    when the row is finalized; when the POST answered with a result, GET
    reports that result. *)
Theorem get_after_post be db mid data now challonge base :
  get_or_create be db mid data = Some base →
  ∃ n fin r,
    match_scores_get
      (fst (match_scores_post be db mid (Some data) now challonge)) mid
      = mkResponse 200 (BodyStatus n fin r) ∧
    (body (snd (match_scores_post be db mid (Some data) now challonge)) =
       BodyWaiting n false (3 - Z.of_nat n)%Z ∧
     fin = finalized base ∧ r = result base
     ∨
     ∃ res, body (snd (match_scores_post be db mid (Some data) now challonge)) =
              BodyFinalized n res challonge ∧
            fin = true ∧ r = Some res ∧ (3 ≤ n)%nat).
Proof.
  intros Hg. destruct (submitted_row_flags base data now) as [Hfin Hres].
  destruct (match_scores_post_stored be db mid data now challonge base Hg)
    as [(_ & Hq & ->)|(_ & ->)]; cbn [fst snd body];
    unfold match_scores_get; rewrite lookup_insert_eq; eexists _, _, _;
    (split; [reflexivity|]).
  - right. eexists. split_and!; [reflexivity| reflexivity | reflexivity |].
    exact Hq.
  - left. split_and!; [reflexivity | exact Hfin | exact Hres].
Qed.

Lemma get_after_post_witness :
  ∃ n fin r,
    match_scores_get
      (fst (match_scores_post strict_backend finalized_db "m1"
              (Some fourth_judge) "t4" (ChallongeReply "ok"))) "m1"
      = mkResponse 200 (BodyStatus n fin r) ∧
    (body (snd (match_scores_post strict_backend finalized_db "m1"
                  (Some fourth_judge) "t4" (ChallongeReply "ok"))) =
       BodyWaiting n false (3 - Z.of_nat n)%Z ∧
     fin = finalized finalized_row ∧ r = result finalized_row
     ∨
     ∃ res, body (snd (match_scores_post strict_backend finalized_db "m1"
                         (Some fourth_judge) "t4" (ChallongeReply "ok"))) =
              BodyFinalized n res (ChallongeReply "ok") ∧
            fin = true ∧ r = Some res ∧ (3 ≤ n)%nat).
Proof.
  apply (get_after_post strict_backend finalized_db "m1" fourth_judge "t4"
           (ChallongeReply "ok") finalized_row).
  vm_compute. reflexivity.
Defined.
End SubmissionFlow.

(** ** Recovery from the attachments of the bracket provider *)

Section Recovery.
Import Inputs.
Implicit Types (be : Backend) (db : gmap string JudgeScore) (row : JudgeScore)
  (mid tid : string) (atts pre rest : list Attachment).

Lemma recover_skip be mid tid pre atts :
  Forall skipped pre →
  recover be mid tid (pre ++ atts) = recover be mid tid atts.
Proof.
  induction 1 as [|a pre Ha _ IH]; [done|]. cbn [app recover].
  destruct a as [| |data]; [done | done |]. cbn [skipped] in Ha.
  by rewrite bool_decide_eq_false_2.
Qed.

(** The recovery loop caches the row of the first attachment of type
    'judge_scores', stepping over text that is not JSON and over objects of
    another type; it finds nothing when there is no such attachment, when an
    attachment whose parsing raises comes before it, and when the database
    refuses the row. *)
Theorem recover_first_breakdown be mid tid atts row :
  recover be mid tid atts = Some row ↔
  ∃ pre data rest,
    atts = (pre ++ AttObject data :: rest)%list ∧ Forall skipped pre ∧
    att_type data = Some "judge_scores" ∧
    insert_ok be (cached_row mid tid data) = true ∧
    row = cached_row mid tid data.
Proof.
  split.
  - induction atts as [|a atts IH]; cbn [recover]; [done|].
    destruct a as [| |data].
    + intros Hr.
      destruct (IH Hr) as (pre & d & rest & -> & Hpre & Hty & Hok & ->).
      exists (AttNotJson :: pre), d, rest. split_and!; try done.
      by constructor.
    + done.
    + case_bool_decide as Hty.
      * destruct (insert_ok _ _) eqn:Hok; [|done].
        intros [= <-]. exists [], data, atts. split_and!; try done.
      * intros Hr.
        destruct (IH Hr) as (pre & d & rest & -> & Hpre & Hty' & Hok & ->).
        exists (AttObject data :: pre), d, rest. split_and!; try done.
        by constructor.
  - intros (pre & data & rest & -> & Hpre & Hty & Hok & ->).
    rewrite recover_skip by done. cbn [recover].
    by rewrite bool_decide_eq_true_2, Hok.
Qed.

(** An attachment whose parsing raises ends the search: nothing behind it is
    looked at. *)
Theorem recover_stops_at_exception be mid tid pre rest :
  Forall skipped pre → recover be mid tid (pre ++ AttRaises :: rest) = None.
Proof. intros Hpre. by rewrite recover_skip. Qed.

Lemma recover_stops_at_exception_witness :
  recover strict_backend "m9" "t1"
    ([AttNotJson] ++ AttRaises :: [AttObject (breakdown sweep_row
                                                (calculate_result sweep_row))])
  = None.
Proof.
  apply (recover_stops_at_exception strict_backend "m9" "t1" [AttNotJson]).
  repeat constructor.
Defined.

(** The breakdown written on finalization restores the finalized row: when
    the table has no row for the match, the details endpoint, called with the
    tournament of the row, caches and returns exactly the row that was
    finalized (whatever unparsable or unrelated attachments come first), the
    database taking the row as it did the first time. *)
Theorem breakdown_restores_row be db row (r : Result) pre rest :
  db !! match_id row = None →
  tournament_id row ≠ "" →
  insert_ok be row = true →
  Forall skipped pre →
  match_scores_details be db (match_id row) (tournament_id row)
    (Some (pre ++ AttObject (breakdown row r) :: rest)%list) =
  (<[match_id row := finalize row r]> db, details_of (finalize row r)).
Proof.
  intros Hnone Htid Hok Hpre. unfold match_scores_details. rewrite Hnone.
  rewrite bool_decide_eq_false_2 by done.
  rewrite recover_skip by done. cbn [recover].
  assert (insert_ok be (cached_row (match_id row) (tournament_id row)
                          (breakdown row r)) = true) as -> by exact Hok.
  reflexivity.
Qed.

Lemma breakdown_restores_row_witness :
  match_scores_details strict_backend ∅ (match_id sweep_row)
    (tournament_id sweep_row)
    (Some ([AttNotJson] ++
           AttObject (breakdown sweep_row (calculate_result sweep_row)) :: [])%list)
  = (<[match_id sweep_row := finalize sweep_row (calculate_result sweep_row)]> ∅,
     details_of (finalize sweep_row (calculate_result sweep_row))).
Proof.
  apply (breakdown_restores_row strict_backend ∅ sweep_row).
  - apply lookup_empty.
  - discriminate.
  - vm_compute. reflexivity.
  - repeat constructor.
Defined.

Lemma details_from_table be db mid tid fetched row :
  db !! mid = Some row →
  match_scores_details be db mid tid fetched = (db, details_of row).
Proof. intros Hl. unfold match_scores_details. by rewrite Hl. Qed.

Lemma details_outcome be db mid tid fetched :
  (∃ row, fst (match_scores_details be db mid tid fetched) !! mid = Some row ∧
          snd (match_scores_details be db mid tid fetched) = details_of row) ∨
  fst (match_scores_details be db mid tid fetched) !! mid = None.
Proof.
  unfold match_scores_details. destruct (db !! mid) as [row|] eqn:Hl.
  - left. by exists row.
  - case_bool_decide; [by right|]. destruct fetched as [atts|]; [|by right].
    destruct (recover be mid tid atts) as [row|]; [|by right].
    left. exists row. cbn [fst snd]. by rewrite lookup_insert_eq.
Qed.

(** Once the table has a row for the match, stored or just recovered, the
    details endpoint answers from the table alone: calling it again, with any
    tournament and any attachments, changes nothing and repeats the answer. *)
Theorem details_repeat be db mid tid fetched tid' fetched' :
  is_Some (fst (match_scores_details be db mid tid fetched) !! mid) →
  match_scores_details be (fst (match_scores_details be db mid tid fetched)) mid
    tid' fetched' = match_scores_details be db mid tid fetched.
Proof.
  intros [row Hrow].
  destruct (details_outcome be db mid tid fetched)
    as [(row' & Hl & Hresp)|Hnone]; [|congruence].
  rewrite (details_from_table be _ _ _ _ _ Hl), <- Hresp.
  by destruct (match_scores_details be db mid tid fetched).
Qed.

Lemma details_repeat_witness :
  match_scores_details strict_backend
    (fst (match_scores_details strict_backend ∅ "m9" "t1"
            (Some [bare_attachment]))) "m9" "" None
  = match_scores_details strict_backend ∅ "m9" "t1" (Some [bare_attachment]).
Proof.
  apply (details_repeat strict_backend ∅ "m9" "t1" (Some [bare_attachment])
           "" None).
  eexists. vm_compute. reflexivity.
Defined.

(** A recovered row is finalized, so its submissions cannot be deleted. *)
Theorem recovered_row_rejects_delete be db mid tid atts row judge_id :
  db !! mid = None → tid ≠ "" →
  recover be mid tid atts = Some row →
  delete_judge_score (fst (match_scores_details be db mid tid (Some atts))) mid
    judge_id =
  (<[mid := row]> db, mkResponse 400 (BodyError "Match already finalized")).
Proof.
  intros Hnone Htid Hr. unfold match_scores_details. rewrite Hnone.
  rewrite bool_decide_eq_false_2 by done. rewrite Hr. cbn [fst].
  unfold delete_judge_score. rewrite lookup_insert_eq.
  by rewrite (recover_finalized _ _ _ _ _ Hr).
Qed.

Lemma recovered_row_rejects_delete_witness :
  delete_judge_score
    (fst (match_scores_details strict_backend ∅ "m9" "t1"
            (Some [bare_attachment]))) "m9" "j1"
  = (<["m9" := cached_row "m9" "t1"
                 (mkAttachmentData (Some "judge_scores") (Some 101%Z)
                    (Some 202%Z) None None)]> ∅,
     mkResponse 400 (BodyError "Match already finalized")).
Proof.
  apply (recovered_row_rejects_delete strict_backend ∅ "m9" "t1"
           [bare_attachment]).
  - apply lookup_empty.
  - discriminate.
  - reflexivity.
Defined.
End Recovery.

(** ** What is reported after finalization *)

Section Reporting.
Import Inputs.
Local Open Scope Z_scope.
Implicit Types (self : JudgeScore).

(** The name announced as the winner is the one of the competitor with the
    higher score of the result: competitor A's only when scoreA > scoreB;
    otherwise competitor B's, which covers the tie and the knockout won by an
    identifier that is in neither corner.  The two competitors of the row
    must have different identifiers. *)
Theorem announced_winner_has_the_score {N : Type} self (name_a name_b : N) :
  competitor_a_id self ≠ competitor_b_id self →
  (announced_names self (calculate_result self) name_a name_b = (name_a, name_b) ∧
   scoreA (calculate_result self) > scoreB (calculate_result self))
  ∨
  (announced_names self (calculate_result self) name_a name_b = (name_b, name_a) ∧
   scoreA (calculate_result self) ≤ scoreB (calculate_result self)).
Proof.
  intros Hab. unfold announced_names.
  destruct (ko_majority (tally_ko_votes (submissions self))) as [[w v]|] eqn:Hm.
  - rewrite (calculate_result_ko self _ _ Hm). cbn [winnerId scoreA scoreB].
    unfold is_winner_a. case_bool_decide as Hw.
    + left. split; [done | lia].
    + right. split; [done | lia].
  - rewrite (calculate_result_points self Hm). cbn [winnerId scoreA scoreB].
    destruct (Z.gtb_spec (fst (point_totals (submissions self)))
                (snd (point_totals (submissions self)))) as [Hgt|Hle].
    + left. rewrite bool_decide_eq_true_2 by done. split; [done | lia].
    + right. rewrite bool_decide_eq_false_2 by done. split; [done | lia].
Qed.

Lemma announced_winner_has_the_score_witness :
  (announced_names foreign_ko_row (calculate_result foreign_ko_row) "A" "B"
     = ("A", "B") ∧
   scoreA (calculate_result foreign_ko_row) > scoreB (calculate_result foreign_ko_row))
  ∨
  (announced_names foreign_ko_row (calculate_result foreign_ko_row) "A" "B"
     = ("B", "A") ∧
   scoreA (calculate_result foreign_ko_row) ≤ scoreB (calculate_result foreign_ko_row)).
Proof. apply (announced_winner_has_the_score foreign_ko_row). discriminate. Defined.

(** What the chat message says about a result: a knockout result is shown as
    "KNOCKOUT!" in red; so is a points result in which one competitor has 0
    points, in particular the 0-0 result of a row without counted scores;
    any other points result is shown as "scoreA - scoreB" in green. *)
Theorem announcement_of_result self :
  (winMethod (calculate_result self) = ko ∨
   scoreA (calculate_result self) = 0 ∨ scoreB (calculate_result self) = 0 →
   result_text (win_method_str (winMethod (calculate_result self)))
     (scoreA (calculate_result self)) (scoreB (calculate_result self))
   = "KNOCKOUT!" ∧
   embed_color (win_method_str (winMethod (calculate_result self)))
     (scoreA (calculate_result self)) (scoreB (calculate_result self))
   = 0xFF0000) ∧
  (winMethod (calculate_result self) = points →
   scoreA (calculate_result self) ≠ 0 → scoreB (calculate_result self) ≠ 0 →
   result_text (win_method_str (winMethod (calculate_result self)))
     (scoreA (calculate_result self)) (scoreB (calculate_result self))
   = str_int (scoreA (calculate_result self)) ++ " - "
     ++ str_int (scoreB (calculate_result self)) ∧
   embed_color (win_method_str (winMethod (calculate_result self)))
     (scoreA (calculate_result self)) (scoreB (calculate_result self))
   = 0x00FF00) ∧
  (counted_scores (submissions self) = [] →
   result_text (win_method_str (winMethod (calculate_result self)))
     (scoreA (calculate_result self)) (scoreB (calculate_result self))
   = "KNOCKOUT!").
Proof.
  assert (∀ m a b, m = ko ∨ a = 0 ∨ b = 0 →
            discord_is_ko (win_method_str m) a b = true) as Hko.
  { intros m a b [-> | [-> | ->]]; unfold discord_is_ko.
    - reflexivity.
    - rewrite Z.eqb_refl. by rewrite orb_true_r.
    - rewrite Z.eqb_refl. by rewrite orb_true_r. }
  split_and!.
  - intros H. unfold result_text, embed_color. by rewrite (Hko _ _ _ H).
  - intros -> Ha Hb. unfold result_text, embed_color, discord_is_ko.
    cbn [win_method_str].
    rewrite bool_decide_eq_false_2 by discriminate.
    by rewrite (proj2 (Z.eqb_neq _ _) Ha), (proj2 (Z.eqb_neq _ _) Hb).
  - intros Hnone. unfold result_text. rewrite Hko; [done|].
    destruct (ko_majority (tally_ko_votes (submissions self))) as [[w v]|] eqn:Hm.
    + left. by rewrite (calculate_result_ko self _ _ Hm).
    + right. left. rewrite (calculate_result_points self Hm). cbn [scoreA].
      rewrite point_totals_sums, Hnone. reflexivity.
Qed.

(** The spec scenario of three judges giving 11 points to A: a points
    result, announced as a knockout. *)
Example sweep_announced_as_knockout :
  winMethod (calculate_result sweep_row) = points ∧
  result_text (win_method_str (winMethod (calculate_result sweep_row)))
    (scoreA (calculate_result sweep_row)) (scoreB (calculate_result sweep_row))
  = "KNOCKOUT!".
Proof. split; vm_compute; reflexivity. Qed.

(** On a knockout the bracket provider is sent the identifier that got the
    majority as winner, with the score string "33-0" when it is competitor A
    and "0-33" in every other case. *)
Theorem knockout_report self :
  winMethod (calculate_result self) = ko →
  ∃ w, winnerId (calculate_result self) = Some w ∧
       scores_csv (calculate_result self) =
         if bool_decide (competitor_a_id self = Some w) then "33-0" else "0-33".
Proof.
  destruct (ko_majority (tally_ko_votes (submissions self))) as [[w v]|] eqn:Hm.
  - intros _. rewrite (calculate_result_ko self _ _ Hm). exists w.
    split; [done|]. unfold scores_csv, is_winner_a. cbn [scoreA scoreB].
    case_bool_decide as H1; case_bool_decide as H2; try done; congruence.
  - rewrite (calculate_result_points self Hm). discriminate.
Qed.

Lemma knockout_report_witness :
  ∃ w, winnerId (calculate_result ko_b_row) = Some w ∧
       scores_csv (calculate_result ko_b_row) =
         if bool_decide (competitor_a_id ko_b_row = Some w) then "33-0" else "0-33".
Proof. apply (knockout_report ko_b_row). vm_compute. reflexivity. Defined.
End Reporting.

(** ** Robot images *)

Section RobotImageProperties.
Context {V : Type} (lower : string → string).
Implicit Types (images : list (string * V)) (name key : string) (v : V).

Lemma first_lower_match_Some images lower_name v :
  first_lower_match lower images lower_name = Some v →
  ∃ key, (key, v) ∈ images ∧ lower key = lower_name.
Proof.
  induction images as [|[key v'] images IH]; cbn [first_lower_match]; [done|].
  case_bool_decide as Hk.
  - intros [= ->]. exists key. split; [left | done].
  - intros Hf. destruct (IH Hf) as (k & Hin & Hl). exists k.
    split; [by right | done].
Qed.

Lemma first_lower_match_None images lower_name :
  first_lower_match lower images lower_name = None ↔
  ∀ key v, (key, v) ∈ images → lower key ≠ lower_name.
Proof.
  induction images as [|[key v'] images IH]; cbn [first_lower_match].
  - split; [|done]. intros _ key v Hin. by apply elem_of_nil in Hin.
  - case_bool_decide as Hk.
    + split; [done|]. intros Hall. exfalso. apply (Hall key v'); [left | done].
    + rewrite IH. split.
      * intros Hall k v Hin. apply elem_of_cons in Hin as [[= -> ->]|Hin];
          [done | by eapply Hall].
      * intros Hall k v Hin. apply (Hall k v). by right.
Qed.

(** [get_robot_image] only ever returns an image stored under a key equal to
    the robot name up to case, and it returns nothing exactly when the map
    or the name is empty or null, or no key equals the name up to case. *)
Theorem get_robot_image_spec (robot_images : option (list (string * V)))
    (robot_name : option string) :
  (∀ v, get_robot_image lower robot_images robot_name = Some v →
        ∃ images name key,
          robot_images = Some images ∧ robot_name = Some name ∧
          (key, v) ∈ images ∧ lower key = lower name) ∧
  (get_robot_image lower robot_images robot_name = None ↔
   robot_images = None ∨ robot_images = Some [] ∨
   robot_name = None ∨ robot_name = Some "" ∨
   ∃ images name,
     robot_images = Some images ∧ robot_name = Some name ∧
     ∀ key v, (key, v) ∈ images → lower key ≠ lower name).
Proof.
  destruct robot_images as [[|e images]|]; cbn [get_robot_image].
  - split; [done|]. split; [by intros _; right; left | done].
  - destruct robot_name as [[|c name]|].
    + split; [done|]. split; [intros _; by do 3 right; left | done].
    + set (imgs := e :: images). set (nm := String c name).
      destruct (PyDict.get imgs nm) as [v0|] eqn:Hg.
      * split.
        -- intros v [= <-]. exists imgs, nm, nm.
           split_and!; try done. by apply PyDictFacts.get_Some_elem_of.
        -- split; [done|]. intros [?|[?|[?|[?|(i & n & [= <-] & [= <-] & Hall)]]]];
             try done.
           exfalso. apply (Hall nm v0); [|done].
           by apply PyDictFacts.get_Some_elem_of.
      * split.
        -- intros v Hf. apply first_lower_match_Some in Hf as (key & Hin & Hl).
           by exists imgs, nm, key.
        -- rewrite first_lower_match_None. split.
           ++ intros Hall. do 4 right. by exists imgs, nm.
           ++ intros [?|[?|[?|[?|(i & n & [= <-] & [= <-] & Hall)]]]];
                try done.
    + split; [done|]. split; [intros _; by do 2 right; left | done].
  - split; [done|]. split; [by intros _; left | done].
Qed.

(** The image stored under the exact name wins over an earlier key that only
    matches up to case. *)
Theorem get_robot_image_exact_first images name v :
  name ≠ "" → PyDict.get images name = Some v →
  get_robot_image lower (Some images) (Some name) = Some v.
Proof.
  intros Hname Hg. destruct images as [|e images]; [done|].
  destruct name as [|c name]; [done|]. cbn [get_robot_image]. by rewrite Hg.
Qed.
End RobotImageProperties.

Lemma get_robot_image_exact_first_witness :
  get_robot_image lower_ascii
    (Some [("SAWBLAZE", "upper.png"); ("Sawblaze", "exact.png")])
    (Some "Sawblaze") = Some "exact.png".
Proof.
  apply (get_robot_image_exact_first lower_ascii
           [("SAWBLAZE", "upper.png"); ("Sawblaze", "exact.png")] "Sawblaze").
  - discriminate.
  - reflexivity.
Defined.

Example get_robot_image_case_insensitive :
  get_robot_image lower_ascii
    (Some [("SAWBLAZE", "upper.png"); ("Tombstone", "t.png")])
    (Some "sawblaze") = Some "upper.png".
Proof. vm_compute. reflexivity. Qed.

(** ** The default scoring criteria and the point tally *)

Section DefaultCriteria.
Import Inputs.
Local Open Scope Z_scope.

Lemma within_default_criteria (s : gmap string Z) :
  within_criteria default_scoring_criteria s →
  dom s ⊆ default_categories ∧
  0 ≤ scores_get s "aggression" 0 ≤ 3 ∧
  0 ≤ scores_get s "damage" 0 ≤ 5 ∧
  0 ≤ scores_get s "control" 0 ≤ 3.
Proof.
  intros Hw.
  assert (∀ k v, s !! k = Some v →
            (k = "aggression" ∧ 0 ≤ v ≤ 3) ∨ (k = "damage" ∧ 0 ≤ v ≤ 5) ∨
            (k = "control" ∧ 0 ≤ v ≤ 3)) as Hcases.
  { intros k v Hk. destruct (Hw k v Hk) as (c & Hc & <- & Hv).
    unfold default_scoring_criteria in Hc.
    repeat (apply elem_of_cons in Hc as [->|Hc]; [cbn in *; tauto|]).
    by apply elem_of_nil in Hc. }
  split; [|split; [|split]].
  - intros k Hk. apply elem_of_dom in Hk as [v Hk].
    unfold default_categories. rewrite !elem_of_union, !elem_of_singleton.
    destruct (Hcases k v Hk) as [[-> _]|[[-> _]|[-> _]]]; tauto.
  - unfold scores_get. destruct (s !! "aggression") as [v|] eqn:Hk; simpl; [|lia].
    destruct (Hcases _ _ Hk) as [[_ ?]|[[? _]|[? _]]]; first [lia | congruence].
  - unfold scores_get. destruct (s !! "damage") as [v|] eqn:Hk; simpl; [|lia].
    destruct (Hcases _ _ Hk) as [[? _]|[[_ ?]|[? _]]]; first [lia | congruence].
  - unfold scores_get. destruct (s !! "control") as [v|] eqn:Hk; simpl; [|lia].
    destruct (Hcases _ _ Hk) as [[? _]|[[? _]|[_ ?]]]; first [lia | congruence].
Qed.

Lemma Zsum_bound (l : list Z) (hi : Z) :
  Forall (fun z => 0 ≤ z ≤ hi) l → 0 ≤ Zsum l ≤ hi * Z.of_nat (length l).
Proof.
  induction 1 as [|z l Hz _ IH]; unfold Zsum in *; simpl; [lia|].
  rewrite Nat2Z.inj_succ. lia.
Qed.

(** For an event without scoring criteria of its own (null or empty), the
    criteria handed out by [get_default_scoring_criteria] agree with the
    point tally: when every counted scores mapping is filled in from them
    (no other category, each between 0 and its points), the per-judge score
    of A is the sum of all its values and lies between 0 and 11, and both
    scores of the result lie between 0 and 11 times the number of counted
    judges for a points result. *)
Theorem default_criteria_fit_the_tally (self : JudgeScore)
    (scoring_criteria : option (list Criterion)) :
  scoring_criteria = None ∨ scoring_criteria = Some [] →
  (∀ s, s ∈ counted_scores (submissions self) →
        within_criteria (get_default_scoring_criteria scoring_criteria) s) →
  (∀ s, s ∈ counted_scores (submissions self) →
        judge_score_a s = sum_category_values s ∧ 0 ≤ judge_score_a s ≤ 11) ∧
  (winMethod (calculate_result self) = points →
   0 ≤ scoreA (calculate_result self)
     ≤ 11 * Z.of_nat (length (counted_scores (submissions self))) ∧
   0 ≤ scoreB (calculate_result self)
     ≤ 11 * Z.of_nat (length (counted_scores (submissions self)))).
Proof.
  intros Hsc Hall.
  assert (get_default_scoring_criteria scoring_criteria = default_scoring_criteria)
    as Hdef by (by destruct Hsc as [-> | ->]).
  rewrite Hdef in Hall.
  assert (∀ s, s ∈ counted_scores (submissions self) →
            judge_score_a s = sum_category_values s ∧ 0 ≤ judge_score_a s ≤ 11)
    as Hjudge.
  { intros s Hs. destruct (within_default_criteria s (Hall s Hs))
      as (Hdom & Ha & Hd & Hc).
    split; [by apply judge_score_a_default_schema|]. unfold judge_score_a. lia. }
  split; [exact Hjudge|]. intros Hpts. apply win_method_points in Hpts.
  rewrite (calculate_result_points self Hpts). cbn [scoreA scoreB].
  rewrite point_totals_sums. cbn [fst snd].
  pose proof (Zsum_bound (judge_score_a <$> counted_scores (submissions self)) 11)
    as Ha.
  pose proof (Zsum_bound (judge_score_b <$> counted_scores (submissions self)) 11)
    as Hb.
  rewrite length_fmap in Ha, Hb. split.
  - apply Ha, Forall_fmap, Forall_forall. intros s Hs. simpl.
    by destruct (Hjudge s Hs).
  - apply Hb, Forall_fmap, Forall_forall. intros s Hs. simpl.
    unfold judge_score_b. destruct (Hjudge s Hs). lia.
Qed.

Lemma default_criteria_fit_the_tally_witness :
  (∀ s, s ∈ counted_scores (submissions open_row) →
        judge_score_a s = sum_category_values s ∧ 0 ≤ judge_score_a s ≤ 11) ∧
  (0 ≤ scoreA (calculate_result open_row)
     ≤ 11 * Z.of_nat (length (counted_scores (submissions open_row))) ∧
   0 ≤ scoreB (calculate_result open_row)
     ≤ 11 * Z.of_nat (length (counted_scores (submissions open_row)))).
Proof.
  destruct (default_criteria_fit_the_tally open_row (Some [])) as [H1 H2].
  - by right.
  - assert (counted_scores (submissions open_row) =
            [<["aggression" := 3]> (<["damage" := 5]> (<["control" := 3]> ∅))])
      as Hcounted by (vm_compute; reflexivity).
    rewrite Hcounted. intros s Hs. apply list_elem_of_singleton in Hs as ->.
    intros k v Hk.
    apply lookup_insert_Some in Hk as [[<- <-]|[_ Hk]].
    { exists (mkCriterion "aggression" "Aggression" 3).
      split; [left|]. split; [reflexivity | cbn; lia]. }
    apply lookup_insert_Some in Hk as [[<- <-]|[_ Hk]].
    { exists (mkCriterion "damage" "Damage" 5).
      split; [right; left|]. split; [reflexivity | cbn; lia]. }
    apply lookup_insert_Some in Hk as [[<- <-]|[_ Hk]].
    { exists (mkCriterion "control" "Control" 3).
      split; [right; right; left|]. split; [reflexivity | cbn; lia]. }
    by rewrite lookup_empty in Hk.
  - split; [exact H1|]. apply H2. vm_compute. reflexivity.
Defined.
End DefaultCriteria.

(** ** The registries *)

Section Registries.
Implicit Types (event_id tournament_id robot_name : string).

(** The listing of an event holds, under each second key, exactly the row
    stored for that event and key. *)
Lemma rows_of_event_lookup {A : Type} (db : gmap (string * string) A)
    event_id (k : string) :
  rows_of_event db event_id !! k = db !! (event_id, k).
Proof.
  unfold rows_of_event.
  apply (map_fold_weak_ind
           (fun r (m : gmap (string * string) A) => r !! k = m !! (event_id, k))).
  - by rewrite !lookup_empty.
  - intros [e t] x m r Hnone IH. cbn [fst snd]. case_bool_decide as He.
    + subst e. destruct (decide (t = k)) as [->|Hne].
      * by rewrite !lookup_insert_eq.
      * rewrite !lookup_insert_ne by congruence. exact IH.
    + rewrite lookup_insert_ne by congruence. exact IH.
Qed.

(** Setting the active match of a tournament makes it the one listed for that
    tournament (replacing any earlier one) and changes no other entry of any
    listing; clearing removes that entry only, and clearing what is not set
    changes nothing and still answers success. *)
Theorem active_match_registry (db : gmap (string * string) ActiveMatch)
    event_id (data : SetActiveMatchData) (now : string) :
  active_matches (fst (set_active_match db event_id (Some data) now)) event_id
    !! sam_tournament_id data = Some (mkActiveMatch (sam_match_id data) now) ∧
  (∀ e t, (e, t) ≠ (event_id, sam_tournament_id data) →
     active_matches (fst (set_active_match db event_id (Some data) now)) e !! t
     = active_matches db e !! t) ∧
  (∀ t, active_matches (fst (clear_active_match db event_id t)) event_id !! t
        = None) ∧
  (∀ e t t', (e, t') ≠ (event_id, t) →
     active_matches (fst (clear_active_match db event_id t)) e !! t'
     = active_matches db e !! t') ∧
  (∀ t, db !! (event_id, t) = None →
     clear_active_match db event_id t =
       (db, mkRegistryResponse 200 (RegCleared "Active match cleared"))).
Proof.
  unfold active_matches, set_active_match, clear_active_match. cbn [fst].
  split_and!.
  - by rewrite rows_of_event_lookup, lookup_insert_eq.
  - intros e t Hne. by rewrite !rows_of_event_lookup, lookup_insert_ne.
  - intros t. by rewrite rows_of_event_lookup, lookup_delete_eq.
  - intros e t t' Hne. by rewrite !rows_of_event_lookup, lookup_delete_ne.
  - intros t Hnone. by rewrite delete_id.
Qed.

(** Resetting a robot's repair timer lists the time of the reset for that
    robot (a second reset moving it) and changes no other entry of any
    listing; clearing removes that entry only. *)
Theorem repair_timer_registry (db : gmap (string * string) string)
    event_id robot_name (now later : string) :
  repair_resets (fst (reset_repair_timer db event_id (Some robot_name) now))
    event_id !! robot_name = Some now ∧
  repair_resets
    (fst (reset_repair_timer
            (fst (reset_repair_timer db event_id (Some robot_name) now))
            event_id (Some robot_name) later))
    event_id !! robot_name = Some later ∧
  (∀ e r, (e, r) ≠ (event_id, robot_name) →
     repair_resets (fst (reset_repair_timer db event_id (Some robot_name) now)) e
       !! r = repair_resets db e !! r) ∧
  repair_resets (fst (clear_repair_reset db event_id robot_name)) event_id
    !! robot_name = None ∧
  (∀ e r, (e, r) ≠ (event_id, robot_name) →
     repair_resets (fst (clear_repair_reset db event_id robot_name)) e !! r
     = repair_resets db e !! r).
Proof.
  unfold repair_resets, reset_repair_timer, clear_repair_reset. cbn [fst].
  split_and!.
  - by rewrite rows_of_event_lookup, lookup_insert_eq.
  - by rewrite rows_of_event_lookup, lookup_insert_eq.
  - intros e r Hne. by rewrite !rows_of_event_lookup, lookup_insert_ne.
  - by rewrite rows_of_event_lookup, lookup_delete_eq.
  - intros e r Hne. by rewrite !rows_of_event_lookup, lookup_delete_ne.
Qed.
End Registries.
